(** * nas-detail booking wizard: validation, pricing and the step state machine

  A shallow embedding of
  - [src/app/models/booking.models.ts] (the data model and the constant tables),
  - [BookingValidationService] (field rules, step validation, completeness),
  - [BookingService] (navigation, form updates, pricing, submission).

  Conventions.
  - Prices and multipliers are JavaScript numbers with fractional values: they
    are binary64 floats ([PrimFloat]) and every product and sum below is the
    IEEE operation the source performs, in the source's order.
  - Whole-number fields (step numbers, years, durations, string lengths,
    Date time values in milliseconds) are in [Z] or [nat].
  - Strings are sequences of code units below 256.
  - The wall clock ([new Date()]) is an explicit [Clock] argument; event
    timestamps are not modelled.
  - An [Observable] returned by the service is described by what it will
    deliver: a value, an error, or the HTTP POST it performs when subscribed. *)

From Stdlib Require Import ZArith List String Ascii Bool Lia PrimFloat DecimalString.
From Stdlib Require Import Permutation.
Import ListNotations.
Open Scope string_scope.
Set Warnings "-inexact-float,-register-all".

(* ================================================================== *)
(** ** JavaScript values as the validation code sees them ([any]) *)
(* ================================================================== *)

Module Js.

(** White space and line terminators recognised by [String.prototype.trim]
    and by the regular-expression class [\s] (code units below 256). *)
Definition isWhiteSpace (c : ascii) : bool :=
  let n := nat_of_ascii c in
  ((9 <=? n)%nat && (n <=? 13)%nat) || (n =? 32)%nat || (n =? 160)%nat.

Definition isLineTerminator (c : ascii) : bool :=
  let n := nat_of_ascii c in (n =? 10)%nat || (n =? 13)%nat.

Fixpoint trimStart (cs : list ascii) : list ascii :=
  match cs with
  | c :: rest => if isWhiteSpace c then trimStart rest else cs
  | [] => []
  end.

Definition trimChars (cs : list ascii) : list ascii :=
  rev (trimStart (rev (trimStart cs))).

Definition trim (s : string) : string :=
  string_of_list_ascii (trimChars (list_ascii_of_string s)).

Definition isUpper (c : ascii) : bool :=
  let n := nat_of_ascii c in (65 <=? n)%nat && (n <=? 90)%nat.

Definition isLower (c : ascii) : bool :=
  let n := nat_of_ascii c in (97 <=? n)%nat && (n <=? 122)%nat.

Definition isDigit (c : ascii) : bool :=
  let n := nat_of_ascii c in (48 <=? n)%nat && (n <=? 57)%nat.

(** [toUpperCase] / [toLowerCase] on the ASCII letters (field names are
    ASCII identifiers). *)
Definition upperChar (c : ascii) : ascii :=
  if isLower c then ascii_of_nat (nat_of_ascii c - 32) else c.

Definition lowerChar (c : ascii) : ascii :=
  if isUpper c then ascii_of_nat (nat_of_ascii c + 32) else c.

Definition toLowerCase (s : string) : string :=
  string_of_list_ascii (map lowerChar (list_ascii_of_string s)).

(** [s.includes(sub)] *)
Fixpoint includes (sub s : string) : bool :=
  prefix sub s ||
  match s with
  | EmptyString => false
  | String _ rest => includes sub rest
  end.

(** [path.split('.')] *)
Fixpoint splitDots (cs : list ascii) (cur : list ascii) : list string :=
  match cs with
  | [] => [string_of_list_ascii (rev cur)]
  | c :: rest =>
      if Ascii.eqb c "."%char
      then string_of_list_ascii (rev cur) :: splitDots rest []
      else splitDots rest (c :: cur)
  end.

Definition split_dot (s : string) : list string :=
  splitDots (list_ascii_of_string s) [].

(** [`${n}`] for a whole number. *)
Definition numberToString (z : Z) : string :=
  NilZero.string_of_int (Z.to_int z).

(** [ToBoolean] of a float: [0], [-0] and [NaN] are falsy. *)
Definition truthyFloat (x : float) : bool :=
  negb (PrimFloat.eqb x 0%float || PrimFloat.is_nan x).

Definition truthyString (s : string) : bool :=
  negb (String.eqb s "").

(** The run-time values reached by [getNestedValue]. Numbers are either
    whole ([JsInt]) or binary64 ([JsFloat]); both have [typeof] ['number'].
    A [Date] object carries its time value and has no own enumerable
    property. *)
Inductive any : Type :=
| JsNull
| JsUndefined
| JsString (s : string)
| JsInt (n : Z)
| JsFloat (x : float)
| JsBoolean (b : bool)
| JsDate (t : Z)
| JsArray (items : list any)
| JsObject (props : list (string * any)).

Fixpoint lookupProp (props : list (string * any)) (key : string) : any :=
  match props with
  | [] => JsUndefined
  | (k, v) :: rest => if String.eqb k key then v else lookupProp rest key
  end.

(** [current?.[key]] for the keys of the validation schema: [undefined] on
    [null], [undefined] and on values without such an own property. *)
Definition getProp (current : any) (key : string) : any :=
  match current with
  | JsObject props => lookupProp props key
  | _ => JsUndefined
  end.

(** [Object.keys(value)] on a value whose [typeof] is ['object'] and that is
    neither [null] nor an array. *)
Definition objectKeys (value : any) : list string :=
  match value with
  | JsObject props => map fst props
  | JsDate _ => []
  | _ => []
  end.

(** [!!value] *)
Definition truthy (value : any) : bool :=
  match value with
  | JsNull | JsUndefined => false
  | JsString s => truthyString s
  | JsInt n => negb (n =? 0)%Z
  | JsFloat x => truthyFloat x
  | JsBoolean b => b
  | JsDate _ | JsArray _ | JsObject _ => true
  end.

(** A property that is present only when the optional field is set. *)
Definition optProp {A} (key : string) (f : A -> any) (o : option A)
  : list (string * any) :=
  match o with
  | Some x => [(key, f x)]
  | None => []
  end.

(** [T | null] *)
Definition nullable {A} (f : A -> any) (o : option A) : any :=
  match o with
  | Some x => f x
  | None => JsNull
  end.

End Js.

(* ================================================================== *)
(** ** Regular expressions (the patterns of the validation schema) *)
(* ================================================================== *)

Module RegExp.

(** Patterns without back-references or look-around; every pattern of the
    schema is anchored by [^] and [$] (no [m] flag), so [test] is a match of
    the whole string. *)
Inductive regex : Type :=
| Never
| Eps
| Class (p : ascii -> bool)
| Seq (r1 r2 : regex)
| Alt (r1 r2 : regex)
| Star (r : regex).

Definition Plus (r : regex) : regex := Seq r (Star r).
Definition Opt (r : regex) : regex := Alt r Eps.

Fixpoint Repeat (n : nat) (r : regex) : regex :=
  match n with
  | O => Eps
  | S k => Seq r (Repeat k r)
  end.

Definition Lit (c : ascii) : regex := Class (Ascii.eqb c).

Fixpoint accepts_empty (r : regex) : bool :=
  match r with
  | Never => false
  | Eps => true
  | Class _ => false
  | Seq r1 r2 => accepts_empty r1 && accepts_empty r2
  | Alt r1 r2 => accepts_empty r1 || accepts_empty r2
  | Star _ => true
  end.

(** Brzozowski derivative with respect to one code unit. *)
Fixpoint deriv (c : ascii) (r : regex) : regex :=
  match r with
  | Never => Never
  | Eps => Never
  | Class p => if p c then Eps else Never
  | Seq r1 r2 =>
      if accepts_empty r1
      then Alt (Seq (deriv c r1) r2) (deriv c r2)
      else Seq (deriv c r1) r2
  | Alt r1 r2 => Alt (deriv c r1) (deriv c r2)
  | Star r1 => Seq (deriv c r1) (Star r1)
  end.

Fixpoint test (r : regex) (s : string) : bool :=
  match s with
  | EmptyString => accepts_empty r
  | String c rest => test (deriv c r) rest
  end.

Definition digit : regex := Class Js.isDigit.
Definition space : ascii -> bool := Js.isWhiteSpace.

(** [/^[A-Z0-9\-\s]+$/i] *)
Definition licensePlatePattern : regex :=
  Plus (Class (fun c => Js.isUpper c || Js.isLower c || Js.isDigit c
                        || Ascii.eqb c "-"%char || space c)).

(** [/^[a-zA-Z\s'-]+$/] *)
Definition namePattern : regex :=
  Plus (Class (fun c => Js.isLower c || Js.isUpper c || space c
                        || Ascii.eqb c "'"%char || Ascii.eqb c "-"%char)).

Definition notSpaceNorAt : regex :=
  Class (fun c => negb (space c || Ascii.eqb c "@"%char)).

(** [/^[^\s@]+@[^\s@]+\.[^\s@]+$/] *)
Definition emailPattern : regex :=
  Seq (Plus notSpaceNorAt)
    (Seq (Lit "@")
       (Seq (Plus notSpaceNorAt)
          (Seq (Lit ".") (Plus notSpaceNorAt)))).

Definition separator : regex :=
  Opt (Class (fun c => Ascii.eqb c "-"%char || space c || Ascii.eqb c "."%char)).

(** [/^[\+]?[(]?[\+]?\d{3}[)]?[-\s\.]?\d{3}[-\s\.]?\d{4}$/] *)
Definition phonePattern : regex :=
  Seq (Opt (Lit "+"))
    (Seq (Opt (Lit "("))
       (Seq (Opt (Lit "+"))
          (Seq (Repeat 3 digit)
             (Seq (Opt (Lit ")"))
                (Seq separator
                   (Seq (Repeat 3 digit)
                      (Seq separator (Repeat 4 digit)))))))).

(** [/^\d{5}(-\d{4})?$/] *)
Definition zipPattern : regex :=
  Seq (Repeat 5 digit) (Opt (Seq (Lit "-") (Repeat 4 digit))).

End RegExp.

(* ================================================================== *)
(** ** The data model ([booking.models.ts]) *)
(* ================================================================== *)

Import Js.

(** A [Date], by its time value in milliseconds. *)
Record Date : Type := { getTime : Z }.

Inductive ServiceCategory := exterior | interior | full | specialty.

Record ServiceType : Type := {
  service_id : string;
  service_name : string;
  service_description : string;
  basePrice : float;
  duration : Z;
  category : ServiceCategory;
  service_available : bool
}.

Record ServiceLevel : Type := {
  level_id : string;
  level_name : string;
  level_description : string;
  priceMultiplier : float;
  features : list string
}.

Inductive VehicleType :=
  sedan | suv | truck | coupe | convertible | van | motorcycle | other.

Inductive SizeCategory := small | medium | large | xlarge.

Inductive Condition := excellent | good | fair | poor.

Record Vehicle : Type := {
  vehicle_id : option string;
  make : string;
  model : string;
  year : Z;
  color : string;
  licensePlate : string;
  vehicleType : VehicleType;
  sizeCategory : SizeCategory;
  condition : option Condition;
  notes : option string
}.

Record TimeSlot : Type := {
  slot_id : string;
  startTime : Date;
  endTime : Date;
  slot_available : bool;
  price : option float
}.

Record AvailableDay : Type := {
  day_date : Date;
  slots : list TimeSlot;
  fullyBooked : bool
}.

Inductive LocationType := mobile | shop.

Record Coordinates : Type := { latitude : float; longitude : float }.

Record Address : Type := {
  street : string;
  city : string;
  state : string;
  zipCode : string;
  country : string;
  coordinates : option Coordinates
}.

Record ShopLocation : Type := {
  shop_id : string;
  shop_name : string;
  shop_address : string;
  shop_phone : string;
  hours : string
}.

Record Location : Type := {
  location_type : LocationType;
  address : option Address;
  shopLocation : option ShopLocation
}.

Inductive ContactMethod := by_email | by_phone | by_text.

Record ContactInfo : Type := {
  firstName : string;
  lastName : string;
  email : string;
  phone : string;
  preferredContact : ContactMethod;
  specialInstructions : option string
}.

Record BookingStep1Data : Type := {
  selectedService : option ServiceType;
  selectedLevel : option ServiceLevel;
  preSelectedService : option string
}.

Record BookingStep2Data : Type := {
  selectedVehicle : option Vehicle;
  isNewVehicle : bool;
  vehicles : list Vehicle
}.

Record BookingStep3Data : Type := {
  selectedDate : option Date;
  selectedTimeSlot : option TimeSlot;
  availableDays : list AvailableDay
}.

Record BookingStep4Data : Type := {
  location : Location;
  contactInfo : ContactInfo
}.

Record BookingStep5Data : Type := {
  termsAccepted : bool;
  marketingOptIn : bool;
  specialRequests : option string
}.

Record BookingFormData : Type := {
  step1 : BookingStep1Data;
  step2 : BookingStep2Data;
  step3 : BookingStep3Data;
  step4 : BookingStep4Data;
  step5 : BookingStep5Data
}.

Record PricingBreakdown : Type := {
  servicePrice : float;
  levelMultiplier : float;
  vehicleSizeMultiplier : float;
  timeSlotSurcharge : float;
  locationSurcharge : float;
  taxes : float;
  discounts : float;
  total : float
}.

Record BookingValidationError : Type := {
  error_step : Z;
  field : string;
  message : string;
  code : string
}.

(** [BOOKING_STEPS] and [MAX_BOOKING_STEPS = Object.keys(BOOKING_STEPS).length] *)
Definition SERVICE_SELECTION : Z := 1.
Definition VEHICLE_INFO : Z := 2.
Definition DATE_TIME : Z := 3.
Definition LOCATION_CONTACT : Z := 4.
Definition CONFIRMATION : Z := 5.

Definition BOOKING_STEPS : list (string * Z) :=
  [("SERVICE_SELECTION", SERVICE_SELECTION); ("VEHICLE_INFO", VEHICLE_INFO);
   ("DATE_TIME", DATE_TIME); ("LOCATION_CONTACT", LOCATION_CONTACT);
   ("CONFIRMATION", CONFIRMATION)].

Definition MAX_BOOKING_STEPS : Z := Z.of_nat (List.length BOOKING_STEPS).

Definition VEHICLE_SIZE_MULTIPLIERS (size : SizeCategory) : float :=
  match size with
  | small => 1.0
  | medium => 1.2
  | large => 1.5
  | xlarge => 2.0
  end%float.

Definition LOCATION_SURCHARGES (type : LocationType) : float :=
  match type with
  | mobile => 25
  | shop => 0
  end%float.

(** The keys of [BookingFormData] / [BookingValidationSchema]. *)
Inductive StepKey := key_step1 | key_step2 | key_step3 | key_step4 | key_step5.

Definition getStepKey (step : Z) : option StepKey :=
  match step with
  | 1 => Some key_step1
  | 2 => Some key_step2
  | 3 => Some key_step3
  | 4 => Some key_step4
  | 5 => Some key_step5
  | _ => None
  end%Z.

(** *** The run-time shape of the typed records

    Enumerations are their string literals; an optional field that is not set
    is an absent property. *)

Definition ServiceCategory_str (c : ServiceCategory) : string :=
  match c with
  | exterior => "exterior" | interior => "interior"
  | full => "full" | specialty => "specialty"
  end.

Definition VehicleType_str (t : VehicleType) : string :=
  match t with
  | sedan => "sedan" | suv => "suv" | truck => "truck" | coupe => "coupe"
  | convertible => "convertible" | van => "van"
  | motorcycle => "motorcycle" | other => "other"
  end.

Definition SizeCategory_str (s : SizeCategory) : string :=
  match s with
  | small => "small" | medium => "medium" | large => "large" | xlarge => "xlarge"
  end.

Definition Condition_str (c : Condition) : string :=
  match c with
  | excellent => "excellent" | good => "good" | fair => "fair" | poor => "poor"
  end.

Definition LocationType_str (t : LocationType) : string :=
  match t with mobile => "mobile" | shop => "shop" end.

Definition ContactMethod_str (m : ContactMethod) : string :=
  match m with by_email => "email" | by_phone => "phone" | by_text => "text" end.

Definition Date_any (d : Date) : any := JsDate (getTime d).

Definition ServiceType_any (s : ServiceType) : any :=
  JsObject
    [("id", JsString (service_id s)); ("name", JsString (service_name s));
     ("description", JsString (service_description s));
     ("basePrice", JsFloat (basePrice s)); ("duration", JsInt (duration s));
     ("category", JsString (ServiceCategory_str (category s)));
     ("available", JsBoolean (service_available s))].

Definition ServiceLevel_any (l : ServiceLevel) : any :=
  JsObject
    [("id", JsString (level_id l)); ("name", JsString (level_name l));
     ("description", JsString (level_description l));
     ("priceMultiplier", JsFloat (priceMultiplier l));
     ("features", JsArray (map JsString (features l)))].

Definition Vehicle_any (v : Vehicle) : any :=
  JsObject
    (optProp "id" JsString (vehicle_id v) ++
     [("make", JsString (make v)); ("model", JsString (model v));
      ("year", JsInt (year v)); ("color", JsString (color v));
      ("licensePlate", JsString (licensePlate v));
      ("vehicleType", JsString (VehicleType_str (vehicleType v)));
      ("sizeCategory", JsString (SizeCategory_str (sizeCategory v)))] ++
     optProp "condition" (fun c => JsString (Condition_str c)) (condition v) ++
     optProp "notes" JsString (notes v)).

Definition TimeSlot_any (t : TimeSlot) : any :=
  JsObject
    ([("id", JsString (slot_id t)); ("startTime", Date_any (startTime t));
      ("endTime", Date_any (endTime t));
      ("available", JsBoolean (slot_available t))] ++
     optProp "price" JsFloat (price t)).

Definition AvailableDay_any (d : AvailableDay) : any :=
  JsObject
    [("date", Date_any (day_date d));
     ("slots", JsArray (map TimeSlot_any (slots d)));
     ("fullyBooked", JsBoolean (fullyBooked d))].

Definition Coordinates_any (c : Coordinates) : any :=
  JsObject [("latitude", JsFloat (latitude c)); ("longitude", JsFloat (longitude c))].

Definition Address_any (a : Address) : any :=
  JsObject
    ([("street", JsString (street a)); ("city", JsString (city a));
      ("state", JsString (state a)); ("zipCode", JsString (zipCode a));
      ("country", JsString (country a))] ++
     optProp "coordinates" Coordinates_any (coordinates a)).

Definition ShopLocation_any (s : ShopLocation) : any :=
  JsObject
    [("id", JsString (shop_id s)); ("name", JsString (shop_name s));
     ("address", JsString (shop_address s)); ("phone", JsString (shop_phone s));
     ("hours", JsString (hours s))].

Definition Location_any (l : Location) : any :=
  JsObject
    ([("type", JsString (LocationType_str (location_type l)))] ++
     optProp "address" Address_any (address l) ++
     optProp "shopLocation" ShopLocation_any (shopLocation l)).

Definition ContactInfo_any (c : ContactInfo) : any :=
  JsObject
    ([("firstName", JsString (firstName c)); ("lastName", JsString (lastName c));
      ("email", JsString (email c)); ("phone", JsString (phone c));
      ("preferredContact", JsString (ContactMethod_str (preferredContact c)))] ++
     optProp "specialInstructions" JsString (specialInstructions c)).

Definition Step1_any (d : BookingStep1Data) : any :=
  JsObject
    ([("selectedService", nullable ServiceType_any (selectedService d));
      ("selectedLevel", nullable ServiceLevel_any (selectedLevel d))] ++
     optProp "preSelectedService" JsString (preSelectedService d)).

Definition Step2_any (d : BookingStep2Data) : any :=
  JsObject
    [("selectedVehicle", nullable Vehicle_any (selectedVehicle d));
     ("isNewVehicle", JsBoolean (isNewVehicle d));
     ("vehicles", JsArray (map Vehicle_any (vehicles d)))].

Definition Step3_any (d : BookingStep3Data) : any :=
  JsObject
    [("selectedDate", nullable Date_any (selectedDate d));
     ("selectedTimeSlot", nullable TimeSlot_any (selectedTimeSlot d));
     ("availableDays", JsArray (map AvailableDay_any (availableDays d)))].

Definition Step4_any (d : BookingStep4Data) : any :=
  JsObject
    [("location", Location_any (location d));
     ("contactInfo", ContactInfo_any (contactInfo d))].

Definition Step5_any (d : BookingStep5Data) : any :=
  JsObject
    ([("termsAccepted", JsBoolean (termsAccepted d));
      ("marketingOptIn", JsBoolean (marketingOptIn d))] ++
     optProp "specialRequests" JsString (specialRequests d)).

(** [formData[stepKey]] *)
Definition stepData (formData : BookingFormData) (key : StepKey) : any :=
  match key with
  | key_step1 => Step1_any (step1 formData)
  | key_step2 => Step2_any (step2 formData)
  | key_step3 => Step3_any (step3 formData)
  | key_step4 => Step4_any (step4 formData)
  | key_step5 => Step5_any (step5 formData)
  end.

(** [ValidationRule]: an absent member is [false] / [None]. *)
Record ValidationRule : Type := {
  required : bool;
  minLength : option nat;
  maxLength : option nat;
  pattern : option RegExp.regex;
  custom : option (any -> BookingFormData -> option string)
}.

Definition StepValidation : Type := list (string * list ValidationRule).

(** The rule literals of the schema. *)
Definition rule_required : ValidationRule :=
  {| required := true; minLength := None; maxLength := None;
     pattern := None; custom := None |}.

Definition rule_minLength (n : nat) : ValidationRule :=
  {| required := false; minLength := Some n; maxLength := None;
     pattern := None; custom := None |}.

Definition rule_maxLength (n : nat) : ValidationRule :=
  {| required := false; minLength := None; maxLength := Some n;
     pattern := None; custom := None |}.

Definition rule_pattern (r : RegExp.regex) : ValidationRule :=
  {| required := false; minLength := None; maxLength := None;
     pattern := Some r; custom := None |}.

Definition rule_custom (f : any -> BookingFormData -> option string)
  : ValidationRule :=
  {| required := false; minLength := None; maxLength := None;
     pattern := None; custom := Some f |}.

(** What [new Date()] gives at the time of a call: the current year and the
    local midnight that starts the current day. *)
Record Clock : Type := { currentYear : Z; today : Z }.

(* ================================================================== *)
(** ** [BookingValidationService] *)
(* ================================================================== *)

Module BookingValidationService.

Definition isEmpty (value : any) : bool :=
  match value with
  | JsNull | JsUndefined => true
  | JsString s => (String.length (trim s) =? 0)%nat
  | JsArray items => (List.length items =? 0)%nat
  | JsDate _ | JsObject _ => (List.length (objectKeys value) =? 0)%nat
  | JsInt _ | JsFloat _ | JsBoolean _ => false
  end.

Definition getLength (value : any) : nat :=
  match value with
  | JsString s => String.length s
  | JsArray items => List.length items
  | _ => 0%nat
  end.

Definition getNestedValue (obj : any) (path : string) : any :=
  fold_left getProp (split_dot path) obj.

(** [.replace(/([A-Z])/g, ' $1')] *)
Fixpoint spaceBeforeCapitals (cs : list ascii) : list ascii :=
  match cs with
  | [] => []
  | c :: rest =>
      if isUpper c then " "%char :: c :: spaceBeforeCapitals rest
      else c :: spaceBeforeCapitals rest
  end.

(** [.replace(/^./, str => str.toUpperCase())] *)
Definition capitalizeFirst (cs : list ascii) : list ascii :=
  match cs with
  | c :: rest => if isLineTerminator c then cs else upperChar c :: rest
  | [] => []
  end.

Definition humanizeFieldName (fieldName : string) : string :=
  let last_segment := List.last (split_dot fieldName) "" in
  string_of_list_ascii
    (trimChars (capitalizeFirst
       (spaceBeforeCapitals (list_ascii_of_string last_segment)))).

Definition getPatternErrorMessage (fieldName : string) : string :=
  let field := toLowerCase fieldName in
  if includes "email" field then "Please enter a valid email address"
  else if includes "phone" field then "Please enter a valid phone number"
  else if includes "licenseplate" field
  then "Please enter a valid license plate (letters and numbers only)"
  else if includes "firstname" field || includes "lastname" field
  then "Name can only contain letters, spaces, hyphens, and apostrophes"
  else if includes "zipcode" field
  then "Please enter a valid ZIP code (12345 or 12345-6789)"
  else "Please enter a valid " ++ toLowerCase (humanizeFieldName fieldName).

(** [String(value)] for the values the pattern rules are attached to. *)
Definition String_of (value : any) : string :=
  match value with
  | JsString s => s
  | JsInt n => numberToString n
  | JsBoolean true => "true"
  | JsBoolean false => "false"
  | JsNull => "null"
  | JsUndefined => "undefined"
  | _ => "[object Object]"
  end.

Definition mkError (step : Z) (fieldName msg c : string)
  : BookingValidationError :=
  {| error_step := step; field := fieldName; message := msg; code := c |}.

Definition applyValidationRule (fieldName : string) (value : any)
    (rule : ValidationRule) (formData : BookingFormData) (step : Z)
  : option BookingValidationError :=
  (* Required validation *)
  if required rule && isEmpty value then
    Some (mkError step fieldName
            (humanizeFieldName fieldName ++ " is required") "REQUIRED")
  (* Skip other validations if value is empty and not required *)
  else if isEmpty value then None
  (* Length validations *)
  else if match minLength rule with
          | Some n => negb (n =? 0)%nat && (getLength value <? n)%nat
          | None => false
          end
  then
    Some (mkError step fieldName
            (humanizeFieldName fieldName ++ " must be at least "
             ++ numberToString (Z.of_nat (match minLength rule with
                                          | Some n => n | None => 0 end))
             ++ " characters") "MIN_LENGTH")
  else if match maxLength rule with
          | Some n => negb (n =? 0)%nat && (n <? getLength value)%nat
          | None => false
          end
  then
    Some (mkError step fieldName
            (humanizeFieldName fieldName ++ " must be no more than "
             ++ numberToString (Z.of_nat (match maxLength rule with
                                          | Some n => n | None => 0 end))
             ++ " characters") "MAX_LENGTH")
  (* Pattern validation *)
  else if match pattern rule with
          | Some r => negb (RegExp.test r (String_of value))
          | None => false
          end
  then Some (mkError step fieldName (getPatternErrorMessage fieldName)
               "INVALID_FORMAT")
  (* Custom validation *)
  else
    match custom rule with
    | Some f =>
        match f value formData with
        | Some customError =>
            if truthyString customError
            then Some (mkError step fieldName customError "CUSTOM_VALIDATION")
            else None
        | None => None
        end
    | None => None
    end.

Section WithClock.

Variable now : Clock.

(** [validateYear]: attached to [selectedVehicle.year], a number. *)
Definition validateYear (value : any) (_ : BookingFormData) : option string :=
  let minYear := 1900%Z in
  let maxYear := (currentYear now + 1)%Z in
  match value with
  | JsInt y =>
      if (y <? minYear)%Z || (maxYear <? y)%Z
      then Some ("Year must be between " ++ numberToString minYear
                 ++ " and " ++ numberToString maxYear)
      else None
  | _ => None
  end.

(** [validateFutureDate]: attached to [selectedDate], a [Date]. *)
Definition validateFutureDate (value : any) (_ : BookingFormData)
  : option string :=
  match value with
  | JsDate t => if (t <? today now)%Z then Some "Please select a future date"
                else None
  | _ => None
  end.

Definition isMobile (formData : BookingFormData) : bool :=
  match location_type (location (step4 formData)) with
  | mobile => true
  | shop => false
  end.

Definition streetRequiredForMobile (value : any) (formData : BookingFormData)
  : option string :=
  if isMobile formData && negb (truthy value)
  then Some "Street address is required for mobile service"
  else None.

Definition cityRequiredForMobile (value : any) (formData : BookingFormData)
  : option string :=
  if isMobile formData && negb (truthy value)
  then Some "City is required for mobile service"
  else None.

Definition zipRequiredForMobile (value : any) (formData : BookingFormData)
  : option string :=
  if isMobile formData then
    if negb (truthy value) then Some "ZIP code is required for mobile service"
    else if negb (RegExp.test RegExp.zipPattern (String_of value))
    then Some "Invalid ZIP code format"
    else None
  else None.

Definition termsMustBeAccepted (value : any) (_ : BookingFormData)
  : option string :=
  if negb (truthy value)
  then Some "You must accept the terms and conditions to proceed"
  else None.

Definition createValidationSchema (key : StepKey) : StepValidation :=
  match key with
  | key_step1 =>
      [("selectedService", [rule_required]);
       ("selectedLevel", [rule_required])]
  | key_step2 =>
      [("selectedVehicle", [rule_required]);
       ("selectedVehicle.make",
         [rule_required; rule_minLength 2; rule_maxLength 50]);
       ("selectedVehicle.model",
         [rule_required; rule_minLength 1; rule_maxLength 50]);
       ("selectedVehicle.year", [rule_required; rule_custom validateYear]);
       ("selectedVehicle.color",
         [rule_required; rule_minLength 3; rule_maxLength 30]);
       ("selectedVehicle.licensePlate",
         [rule_required; rule_minLength 2; rule_maxLength 10;
          rule_pattern RegExp.licensePlatePattern]);
       ("selectedVehicle.vehicleType", [rule_required]);
       ("selectedVehicle.sizeCategory", [rule_required])]
  | key_step3 =>
      [("selectedDate", [rule_required; rule_custom validateFutureDate]);
       ("selectedTimeSlot", [rule_required])]
  | key_step4 =>
      [("contactInfo.firstName",
         [rule_required; rule_minLength 2; rule_maxLength 50;
          rule_pattern RegExp.namePattern]);
       ("contactInfo.lastName",
         [rule_required; rule_minLength 2; rule_maxLength 50;
          rule_pattern RegExp.namePattern]);
       ("contactInfo.email",
         [rule_required; rule_pattern RegExp.emailPattern]);
       ("contactInfo.phone",
         [rule_required; rule_pattern RegExp.phonePattern]);
       ("contactInfo.preferredContact", [rule_required]);
       ("location.type", [rule_required]);
       ("location.address.street", [rule_custom streetRequiredForMobile]);
       ("location.address.city", [rule_custom cityRequiredForMobile]);
       ("location.address.zipCode", [rule_custom zipRequiredForMobile])]
  | key_step5 =>
      [("termsAccepted", [rule_custom termsMustBeAccepted])]
  end.

Definition validateField (fieldName : string) (value : any)
    (rules : list ValidationRule) (formData : BookingFormData) (step : Z)
  : list BookingValidationError :=
  flat_map
    (fun rule =>
       match applyValidationRule fieldName value rule formData step with
       | Some error => [error]
       | None => []
       end)
    rules.

Definition validateStep (step : Z) (formData : BookingFormData)
  : list BookingValidationError :=
  match getStepKey step with
  | None => []
  | Some stepKey =>
      flat_map
        (fun entry : string * list ValidationRule =>
           let (fieldName, rules) := entry in
           let fieldValue := getNestedValue (stepData formData stepKey) fieldName in
           validateField fieldName fieldValue rules formData step)
        (createValidationSchema stepKey)
  end.

(** [for (let step = 1; step <= 5; step++)] *)
Definition validateAllSteps (formData : BookingFormData)
  : list BookingValidationError :=
  flat_map (fun step => validateStep step formData) [1; 2; 3; 4; 5]%Z.

Definition isStepValid (step : Z) (formData : BookingFormData) : bool :=
  (List.length (validateStep step formData) =? 0)%nat.

Definition getFieldErrors (fieldName : string) (step : Z)
    (allErrors : list BookingValidationError) : list BookingValidationError :=
  filter (fun error => (error_step error =? step)%Z
                       && String.eqb (field error) fieldName) allErrors.

Definition clearFieldErrors (fieldName : string) (step : Z)
    (errors : list BookingValidationError) : list BookingValidationError :=
  filter (fun error => negb (String.eqb (field error) fieldName
                             && (error_step error =? step)%Z)) errors.

Definition isContactInfoComplete (c : ContactInfo) : bool :=
  truthyString (firstName c) && truthyString (lastName c)
  && truthyString (email c) && truthyString (phone c)
  && truthyString (ContactMethod_str (preferredContact c)).

Definition isLocationComplete (l : Location) : bool :=
  match location_type l with
  | shop => match shopLocation l with Some _ => true | None => false end
  | mobile =>
      match address l with
      | Some a => truthyString (street a) && truthyString (city a)
                  && truthyString (zipCode a)
      | None => false
      end
  end.

Definition isSome {A} (o : option A) : bool :=
  match o with Some _ => true | None => false end.

(** The cases of the [switch] are [BOOKING_STEPS.SERVICE_SELECTION] (1),
    [VEHICLE_INFO] (2), [DATE_TIME] (3) and [LOCATION_CONTACT] (4). *)
Definition canProceedToNextStep (currentStep : Z) (formData : BookingFormData)
  : bool :=
  if negb (isStepValid currentStep formData) then false
  else
    match currentStep with
    | 1 => isSome (selectedService (step1 formData))
           && isSome (selectedLevel (step1 formData))
    | 2 => isSome (selectedVehicle (step2 formData))
    | 3 => isSome (selectedDate (step3 formData))
           && isSome (selectedTimeSlot (step3 formData))
    | 4 => isContactInfoComplete (contactInfo (step4 formData))
           && isLocationComplete (location (step4 formData))
    | _ => true
    end%Z.

End WithClock.

End BookingValidationService.

(* ================================================================== *)
(** ** [BookingService] *)
(* ================================================================== *)

(** The public interface of the injected validation service, as
    [BookingService] uses it ([this.validationService]). *)
Record ValidationService : Type := {
  validateStep : Z -> BookingFormData -> list BookingValidationError;
  validateAllSteps : BookingFormData -> list BookingValidationError;
  canProceedToNextStep : Z -> BookingFormData -> bool
}.

(** The service the application provides, at a given wall-clock time. *)
Definition bookingValidationService (now : Clock) : ValidationService :=
  {| validateStep := BookingValidationService.validateStep now;
     validateAllSteps := BookingValidationService.validateAllSteps now;
     canProceedToNextStep := BookingValidationService.canProceedToNextStep now |}.

(** The [data] argument of [updateStepData]: an object literal that names
    some of the fields of the step records. [None] is an absent key; a key
    that does not belong to the updated step is never read again. *)
Record StepPatch : Type := {
  patch_selectedService : option (option ServiceType);
  patch_selectedLevel : option (option ServiceLevel);
  patch_preSelectedService : option (option string);
  patch_selectedVehicle : option (option Vehicle);
  patch_isNewVehicle : option bool;
  patch_vehicles : option (list Vehicle);
  patch_selectedDate : option (option Date);
  patch_selectedTimeSlot : option (option TimeSlot);
  patch_availableDays : option (list AvailableDay);
  patch_location : option Location;
  patch_contactInfo : option ContactInfo;
  patch_termsAccepted : option bool;
  patch_marketingOptIn : option bool;
  patch_specialRequests : option (option string)
}.

Definition emptyPatch : StepPatch :=
  {| patch_selectedService := None; patch_selectedLevel := None;
     patch_preSelectedService := None; patch_selectedVehicle := None;
     patch_isNewVehicle := None; patch_vehicles := None;
     patch_selectedDate := None; patch_selectedTimeSlot := None;
     patch_availableDays := None; patch_location := None;
     patch_contactInfo := None; patch_termsAccepted := None;
     patch_marketingOptIn := None; patch_specialRequests := None |}.

Inductive EventType :=
| step_changed | data_updated | validation_error
| submission_started | submission_completed | submission_failed.

(** [BookingEvent] without its timestamp. *)
Record BookingEvent : Type := {
  event_type : EventType;
  event_step : option Z;
  event_data : option (StepKey * StepPatch);
  event_error : option string
}.

Record BookingState : Type := {
  currentStep : Z;
  isLoading : bool;
  formData : BookingFormData;
  validationErrors : list BookingValidationError;
  pricing : option PricingBreakdown;
  availableServices : list ServiceType;
  availableLevels : list ServiceLevel;
  savedVehicles : list Vehicle;
  isSubmitting : bool;
  submissionError : option string
}.

(** The record built by [createBookingFromFormData]. The non-null assertions
    ([!]) of the source are erased at run time, so every asserted member may
    still be [null]; [createdAt] and [updatedAt] are wall-clock stamps and
    are left out. *)
Record Booking : Type := {
  booking_service : option ServiceType;
  booking_serviceLevel : option ServiceLevel;
  booking_vehicle : option Vehicle;
  booking_scheduledDate : option Date;
  booking_timeSlot : option TimeSlot;
  booking_location : Location;
  booking_contactInfo : ContactInfo;
  booking_pricing : option PricingBreakdown;
  booking_specialInstructions : option string;
  booking_status : string;
  booking_paymentStatus : string
}.

(** [BookingCreationResponse], the payload of a successful submission. *)
Record BookingCreationResponse : Type := {
  confirmationNumber : string;
  paymentRequired : bool;
  nextSteps : list string
}.

(** What a returned observable does for its subscriber: deliver a value,
    fail, or send [body] to [url] and relay the reply. *)
Inductive Observable (T : Type) : Type :=
| Emits (value : T)
| ThrowError (error_message : string)
| HttpPost (url : string) (body : Booking).

Arguments Emits {T} value.
Arguments ThrowError {T} error_message.
Arguments HttpPost {T} url body.

(** The two subjects of a service instance: the current state and the
    events emitted so far (oldest first). *)
Record Instance : Type := {
  bookingStateSubject : BookingState;
  eventSubject : list BookingEvent
}.

Module BookingService.

Definition apiBaseUrl : string := "/api/bookings".

Definition createInitialState : BookingState :=
  {| currentStep := 1;
     isLoading := false;
     formData :=
       {| step1 := {| selectedService := None; selectedLevel := None;
                      preSelectedService := None |};
          step2 := {| selectedVehicle := None; isNewVehicle := false;
                      vehicles := [] |};
          step3 := {| selectedDate := None; selectedTimeSlot := None;
                      availableDays := [] |};
          step4 :=
            {| location :=
                 {| location_type := mobile;
                    address := Some {| street := ""; city := ""; state := "";
                                       zipCode := ""; country := "US";
                                       coordinates := None |};
                    shopLocation := None |};
               contactInfo :=
                 {| firstName := ""; lastName := ""; email := ""; phone := "";
                    preferredContact := by_email;
                    specialInstructions := None |} |};
          step5 := {| termsAccepted := false; marketingOptIn := false;
                      specialRequests := Some "" |} |};
     validationErrors := [];
     pricing := None;
     availableServices := [];
     availableLevels := [];
     savedVehicles := [];
     isSubmitting := false;
     submissionError := None |}.

Definition initialInstance : Instance :=
  {| bookingStateSubject := createInitialState; eventSubject := [] |}.

(** The partial updates passed to [updateState]. *)
Definition set_currentStep (step : Z) (s : BookingState) : BookingState :=
  {| currentStep := step; isLoading := isLoading s; formData := formData s;
     validationErrors := validationErrors s; pricing := pricing s;
     availableServices := availableServices s;
     availableLevels := availableLevels s; savedVehicles := savedVehicles s;
     isSubmitting := isSubmitting s; submissionError := submissionError s |}.

Definition set_validationErrors (errors : list BookingValidationError)
    (s : BookingState) : BookingState :=
  {| currentStep := currentStep s; isLoading := isLoading s;
     formData := formData s;
     validationErrors := errors; pricing := pricing s;
     availableServices := availableServices s;
     availableLevels := availableLevels s; savedVehicles := savedVehicles s;
     isSubmitting := isSubmitting s; submissionError := submissionError s |}.

Definition set_formData (data : BookingFormData) (s : BookingState)
  : BookingState :=
  {| currentStep := currentStep s; isLoading := isLoading s;
     formData := data;
     validationErrors := validationErrors s; pricing := pricing s;
     availableServices := availableServices s;
     availableLevels := availableLevels s; savedVehicles := savedVehicles s;
     isSubmitting := isSubmitting s; submissionError := submissionError s |}.

Definition set_pricing (p : option PricingBreakdown) (s : BookingState)
  : BookingState :=
  {| currentStep := currentStep s; isLoading := isLoading s;
     formData := formData s;
     validationErrors := validationErrors s; pricing := p;
     availableServices := availableServices s;
     availableLevels := availableLevels s; savedVehicles := savedVehicles s;
     isSubmitting := isSubmitting s; submissionError := submissionError s |}.

Definition set_submitting (b : bool) (error : option string) (s : BookingState)
  : BookingState :=
  {| currentStep := currentStep s; isLoading := isLoading s;
     formData := formData s;
     validationErrors := validationErrors s; pricing := pricing s;
     availableServices := availableServices s;
     availableLevels := availableLevels s; savedVehicles := savedVehicles s;
     isSubmitting := b; submissionError := error |}.

Definition updateState (updates : BookingState -> BookingState)
    (this : Instance) : Instance :=
  {| bookingStateSubject := updates (bookingStateSubject this);
     eventSubject := eventSubject this |}.

Definition emitEvent (event : BookingEvent) (this : Instance) : Instance :=
  {| bookingStateSubject := bookingStateSubject this;
     eventSubject := eventSubject this ++ [event] |}.

Definition shouldRecalculatePricing (step : Z) : bool :=
  existsb (Z.eqb step) [1; 2; 3; 4]%Z.

(** [{ ...currentState.formData[stepKey], ...data }] *)
Definition override {A} (patched : option A) (old : A) : A :=
  match patched with
  | Some v => v
  | None => old
  end.

Definition mergeStep (formData : BookingFormData) (stepKey : StepKey)
    (data : StepPatch) : BookingFormData :=
  match stepKey with
  | key_step1 =>
      {| step1 :=
           {| selectedService :=
                override (patch_selectedService data)
                  (selectedService (step1 formData));
              selectedLevel :=
                override (patch_selectedLevel data)
                  (selectedLevel (step1 formData));
              preSelectedService :=
                override (patch_preSelectedService data)
                  (preSelectedService (step1 formData)) |};
         step2 := step2 formData; step3 := step3 formData;
         step4 := step4 formData; step5 := step5 formData |}
  | key_step2 =>
      {| step1 := step1 formData;
         step2 :=
           {| selectedVehicle :=
                override (patch_selectedVehicle data)
                  (selectedVehicle (step2 formData));
              isNewVehicle :=
                override (patch_isNewVehicle data)
                  (isNewVehicle (step2 formData));
              vehicles :=
                override (patch_vehicles data) (vehicles (step2 formData)) |};
         step3 := step3 formData; step4 := step4 formData;
         step5 := step5 formData |}
  | key_step3 =>
      {| step1 := step1 formData; step2 := step2 formData;
         step3 :=
           {| selectedDate :=
                override (patch_selectedDate data)
                  (selectedDate (step3 formData));
              selectedTimeSlot :=
                override (patch_selectedTimeSlot data)
                  (selectedTimeSlot (step3 formData));
              availableDays :=
                override (patch_availableDays data)
                  (availableDays (step3 formData)) |};
         step4 := step4 formData; step5 := step5 formData |}
  | key_step4 =>
      {| step1 := step1 formData; step2 := step2 formData;
         step3 := step3 formData;
         step4 :=
           {| location :=
                override (patch_location data) (location (step4 formData));
              contactInfo :=
                override (patch_contactInfo data)
                  (contactInfo (step4 formData)) |};
         step5 := step5 formData |}
  | key_step5 =>
      {| step1 := step1 formData; step2 := step2 formData;
         step3 := step3 formData; step4 := step4 formData;
         step5 :=
           {| termsAccepted :=
                override (patch_termsAccepted data)
                  (termsAccepted (step5 formData));
              marketingOptIn :=
                override (patch_marketingOptIn data)
                  (marketingOptIn (step5 formData));
              specialRequests :=
                override (patch_specialRequests data)
                  (specialRequests (step5 formData)) |} |}
  end.

(** [step3.selectedTimeSlot?.price || 0] *)
Definition slotSurcharge (slot : option TimeSlot) : float :=
  match slot with
  | Some s =>
      match price s with
      | Some p => if truthyFloat p then p else 0%float
      | None => 0%float
      end
  | None => 0%float
  end.

Definition calculatePricing (this : Instance)
  : Observable PricingBreakdown * Instance :=
  let currentState := bookingStateSubject this in
  let fd := formData currentState in
  match selectedService (step1 fd), selectedLevel (step1 fd),
        selectedVehicle (step2 fd) with
  | Some service, Some level, Some vehicle =>
      let servicePrice0 := basePrice service in
      let levelMultiplier0 := priceMultiplier level in
      let vehicleSizeMultiplier0 :=
        VEHICLE_SIZE_MULTIPLIERS (sizeCategory vehicle) in
      let timeSlotSurcharge0 := slotSurcharge (selectedTimeSlot (step3 fd)) in
      let locationSurcharge0 :=
        LOCATION_SURCHARGES (location_type (location (step4 fd))) in
      let subtotal :=
        (servicePrice0 * levelMultiplier0 * vehicleSizeMultiplier0)%float in
      let totalSurcharges := (timeSlotSurcharge0 + locationSurcharge0)%float in
      let taxRate := 0.08%float in
      let taxes0 := ((subtotal + totalSurcharges) * taxRate)%float in
      let total0 := (subtotal + totalSurcharges + taxes0)%float in
      let pricing0 :=
        {| servicePrice := subtotal;
           levelMultiplier := levelMultiplier0;
           vehicleSizeMultiplier := vehicleSizeMultiplier0;
           timeSlotSurcharge := timeSlotSurcharge0;
           locationSurcharge := locationSurcharge0;
           taxes := taxes0;
           discounts := 0%float;
           total := total0 |} in
      (Emits pricing0, updateState (set_pricing (Some pricing0)) this)
  | _, _, _ => (ThrowError "Required selections not complete", this)
  end.

Definition updateStepData (step : Z) (data : StepPatch) (this : Instance)
  : Instance :=
  let currentState := bookingStateSubject this in
  match getStepKey step with
  | None => this
  | Some stepKey =>
      let updatedFormData := mergeStep (formData currentState) stepKey data in
      (* Clear validation errors for the updated fields *)
      let updatedErrors :=
        filter (fun error => negb (error_step error =? step)%Z)
          (validationErrors currentState) in
      let this1 :=
        updateState
          (fun s => set_validationErrors updatedErrors
                      (set_formData updatedFormData s)) this in
      (* Recalculate pricing if necessary *)
      let this2 :=
        if shouldRecalculatePricing step then snd (calculatePricing this1)
        else this1 in
      emitEvent {| event_type := data_updated; event_step := Some step;
                   event_data := Some (stepKey, data);
                   event_error := None |} this2
  end.

Definition vehiclePatch (vehicle : Vehicle) : StepPatch :=
  {| patch_selectedService := None; patch_selectedLevel := None;
     patch_preSelectedService := None;
     patch_selectedVehicle := Some (Some vehicle);
     patch_isNewVehicle := Some false; patch_vehicles := None;
     patch_selectedDate := None; patch_selectedTimeSlot := None;
     patch_availableDays := None; patch_location := None;
     patch_contactInfo := None; patch_termsAccepted := None;
     patch_marketingOptIn := None; patch_specialRequests := None |}.

Definition selectVehicle (vehicle : Vehicle) : Instance -> Instance :=
  updateStepData 2 (vehiclePatch vehicle).

Definition createBookingFromFormData (fd : BookingFormData)
    (pricing0 : option PricingBreakdown) : Booking :=
  {| booking_service := selectedService (step1 fd);
     booking_serviceLevel := selectedLevel (step1 fd);
     booking_vehicle := selectedVehicle (step2 fd);
     booking_scheduledDate := selectedDate (step3 fd);
     booking_timeSlot := selectedTimeSlot (step3 fd);
     booking_location := location (step4 fd);
     booking_contactInfo := contactInfo (step4 fd);
     booking_pricing := pricing0;
     booking_specialInstructions := specialRequests (step5 fd);
     booking_status := "pending";
     booking_paymentStatus := "pending" |}.

Definition resetBooking (this : Instance) : Instance :=
  emitEvent {| event_type := step_changed; event_step := Some 1%Z;
               event_data := None; event_error := None |}
    (updateState (fun _ => createInitialState) this).

(** [clearValidationErrors(step?)]: [step ? ... : []], so an absent step and
    step [0] both clear every error. *)
Definition clearValidationErrors (step : option Z) (this : Instance)
  : Instance :=
  let currentState := bookingStateSubject this in
  let updatedErrors :=
    match step with
    | Some k =>
        if negb (k =? 0)%Z
        then filter (fun error => negb (error_step error =? k)%Z)
               (validationErrors currentState)
        else []
    | None => []
    end in
  updateState (set_validationErrors updatedErrors) this.

(** [canGoToPreviousStep$] and [isLastStep$], as functions of the state they
    are mapped from. *)
Definition canGoToPreviousStep_obs (s : BookingState) : bool :=
  (1 <? currentStep s)%Z.

Definition isLastStep_obs (s : BookingState) : bool :=
  (currentStep s =? MAX_BOOKING_STEPS)%Z.

Section WithValidation.

Variable validationService : ValidationService.

Definition goToStep (step : Z) (this : Instance)
  : Observable bool * Instance :=
  if (step <? 1)%Z || (MAX_BOOKING_STEPS <? step)%Z then
    (ThrowError ("Invalid step: " ++ numberToString step), this)
  else
    let currentState := bookingStateSubject this in
    (* Validate current step before allowing navigation *)
    if (currentStep currentState <? step)%Z
       && negb (canProceedToNextStep validationService
                  (currentStep currentState) (formData currentState))
    then
      let errors :=
        validateStep validationService
          (currentStep currentState) (formData currentState) in
      (ThrowError "Please complete current step before proceeding",
       updateState
         (set_validationErrors (validationErrors currentState ++ errors)) this)
    else
      (Emits true,
       emitEvent {| event_type := step_changed; event_step := Some step;
                    event_data := None; event_error := None |}
         (updateState (set_currentStep step) this)).

Definition nextStep (this : Instance) : Observable bool * Instance :=
  goToStep (currentStep (bookingStateSubject this) + 1) this.

Definition previousStep (this : Instance) : Observable bool * Instance :=
  goToStep (currentStep (bookingStateSubject this) - 1) this.

Definition submitBooking (this : Instance)
  : Observable BookingCreationResponse * Instance :=
  let currentState := bookingStateSubject this in
  (* Final validation *)
  let allErrors := validateAllSteps validationService (formData currentState) in
  if (0 <? List.length allErrors)%nat then
    (ThrowError "Validation errors exist",
     emitEvent {| event_type := validation_error; event_step := None;
                  event_data := None;
                  event_error := Some "Please correct all validation errors" |}
       (updateState (set_validationErrors allErrors) this))
  else
    let this1 :=
      emitEvent {| event_type := submission_started; event_step := None;
                   event_data := None; event_error := None |}
        (updateState (set_submitting true None) this) in
    let bookingData :=
      createBookingFromFormData (formData currentState) (pricing currentState) in
    (HttpPost apiBaseUrl bookingData, this1).

Definition validateCurrentStep (this : Instance)
  : Observable (list BookingValidationError) * Instance :=
  let currentState := bookingStateSubject this in
  let errors :=
    validateStep validationService
      (currentStep currentState) (formData currentState) in
  (Emits errors,
   updateState
     (set_validationErrors
        (filter (fun e => negb (error_step e =? currentStep currentState)%Z)
           (validationErrors currentState) ++ errors)) this).

(** [canProceedToNextStep$]: the value [combineLatest] settles on once the
    three projections of a state have been delivered. *)
Definition canProceedToNextStep_obs (s : BookingState) : bool :=
  let stepErrors :=
    filter (fun error => (error_step error =? currentStep s)%Z)
      (validationErrors s) in
  (List.length stepErrors =? 0)%nat
  && canProceedToNextStep validationService (currentStep s) (formData s).

End WithValidation.

End BookingService.

(* ================================================================== *)
(** ** [BookingConfirmationService]: templates, SMS and reminders *)
(* ================================================================== *)

Inductive BookingStatus :=
| status_pending | status_confirmed | status_in_progress
| status_completed | status_cancelled | status_no_show.

Inductive PaymentStatus :=
| payment_pending | payment_paid | payment_failed | payment_refunded.

Inductive PaymentMethod := pay_card | pay_cash | pay_check.

(** A complete [Booking], as the booking API returns it. *)
Record StoredBooking : Type := {
  stored_id : option string;
  customerId : option string;
  stored_status : BookingStatus;
  stored_service : ServiceType;
  stored_serviceLevel : ServiceLevel;
  stored_vehicle : Vehicle;
  scheduledDate : Date;
  stored_timeSlot : TimeSlot;
  stored_location : Location;
  stored_contactInfo : ContactInfo;
  stored_pricing : PricingBreakdown;
  stored_paymentStatus : PaymentStatus;
  paymentMethod : option PaymentMethod;
  stored_specialInstructions : option string;
  createdAt : Date;
  updatedAt : Date;
  completedAt : option Date;
  rating : option float;
  review : option string
}.

Record BusinessContact : Type := {
  primaryPhone : string;
  businessHours : string;
  emergencyContact : option string
}.

Record ServiceDetails : Type := {
  details_duration : string;
  whatToExpect : list string;
  preparation : list string
}.

Record BookingConfirmationData : Type := {
  confirmed_booking : StoredBooking;
  confirmed_number : string;
  estimatedArrival : option Date;
  confirmed_specialInstructions : option string;
  confirmed_contactInfo : BusinessContact;
  confirmed_nextSteps : list string;
  cancellationPolicy : string;
  serviceDetails : ServiceDetails
}.

Record ReminderSettings : Type := {
  remind_email : bool;
  remind_sms : bool;
  daysBefore : list Z;
  customMessage : option string
}.

(** [NotificationTemplate]; [type] is kept as the string the API delivers. *)
Record NotificationTemplate : Type := {
  template_id : string;
  template_type : string;
  subject : string;
  content : string;
  template_variables : list string
}.

Inductive Channel := channel_email | channel_sms | channel_push.

Record Recipient : Type := {
  recipient_email : string;
  recipient_phone : option string;
  recipient_name : string
}.

(** [NotificationRequest]; every template variable built here is a string. *)
Record NotificationRequest : Type := {
  templateId : string;
  recipient : Recipient;
  variables : list (string * string);
  scheduledFor : option Date;
  channel : Channel
}.

(** What a notification method returns: [of(value)], [throwError], or the
    POST of a request to the notification endpoint. *)
Inductive Dispatch : Type :=
| Completed (value : bool)
| Refused (error_message : string)
| Posted (url : string) (request : NotificationRequest).

Module BookingConfirmationService.

Definition notificationsUrl : string := "/api/notifications".

Definition getTemplate (templatesCache : list NotificationTemplate)
    (type : string) : option NotificationTemplate :=
  find (fun t => String.eqb (template_type t) type) templatesCache.

Definition getMockTemplates : list NotificationTemplate :=
  [ {| template_id := "booking_confirmation";
       template_type := "booking_confirmation";
       subject := "Booking Confirmation - {{serviceName}}";
       content := "Your booking has been confirmed for {{scheduledDate}} at {{scheduledTime}}";
       template_variables :=
         ["customerName"; "confirmationNumber"; "serviceName"; "scheduledDate"] |};
    {| template_id := "booking_confirmation_sms";
       template_type := "booking_confirmation";
       subject := "Booking Confirmed";
       content := "Hi {{customerName}}, your {{serviceName}} is confirmed for {{scheduledDate}}. Confirmation: {{confirmationNumber}}";
       template_variables :=
         ["customerName"; "serviceName"; "scheduledDate"; "confirmationNumber"] |};
    {| template_id := "reminder";
       template_type := "reminder";
       subject := "Upcoming Service Reminder";
       content := "Your {{serviceName}} is scheduled for {{daysUntilService}} days";
       template_variables := ["customerName"; "serviceName"; "daysUntilService"] |};
    {| template_id := "arrival_notice";
       template_type := "arrival_notice";
       subject := "Our technician is on the way!";
       content := "{{technicianName}} will arrive at {{estimatedArrival}} for your {{serviceName}}";
       template_variables :=
         ["customerName"; "technicianName"; "estimatedArrival"; "serviceName"] |};
    {| template_id := "completion";
       template_type := "completion";
       subject := "Service Complete - How did we do?";
       content := "Your {{serviceName}} is complete! Please share your feedback: {{feedbackUrl}}";
       template_variables := ["customerName"; "serviceName"; "feedbackUrl"] |};
    {| template_id := "cancellation";
       template_type := "cancellation";
       subject := "Booking Cancellation Confirmation";
       content := "Your {{serviceName}} scheduled for {{scheduledDate}} has been cancelled";
       template_variables :=
         ["customerName"; "serviceName"; "scheduledDate"; "reason"] |} ].

Definition formatLocationForCalendar (l : Location) : string :=
  match location_type l, address l with
  | mobile, Some a =>
      street a ++ ", " ++ city a ++ ", " ++ state a ++ " " ++ zipCode a
  | _, _ =>
      match shopLocation l with
      | Some s => if truthyString (shop_address s) then shop_address s
                  else "Location TBD"
      | None => "Location TBD"
      end
  end.

Definition formatLocationForTemplate (l : Location) : string :=
  match location_type l with
  | mobile => "Mobile Service - We'll come to you!"
  | shop =>
      match shopLocation l with
      | Some s => if truthyString (shop_name s) then shop_name s
                  else "Our shop location"
      | None => "Our shop location"
      end
  end.

(** [items.join('\n')] *)
Definition joinLines (items : list string) : string :=
  String.concat (String (ascii_of_nat 10) EmptyString) items.

Section WithPlatform.

(** The platform services the templates rely on: [Intl.DateTimeFormat] with
    the two option sets of [formatDate] and [formatTime],
    [Number.prototype.toFixed(2)], and the calendar arithmetic of
    [setDate(getDate() - days)]. *)
Variables (formatDate formatTime : Date -> string)
          (toFixed2 : float -> string)
          (minusDays : Date -> Z -> Date).

Definition createTemplateVariables (confirmationData : BookingConfirmationData)
  : list (string * string) :=
  let booking := confirmed_booking confirmationData in
  [ ("customerName", firstName (stored_contactInfo booking));
    ("confirmationNumber", confirmed_number confirmationData);
    ("serviceName", service_name (stored_service booking));
    ("serviceLevel", level_name (stored_serviceLevel booking));
    ("scheduledDate", formatDate (scheduledDate booking));
    ("scheduledTime", formatTime (startTime (stored_timeSlot booking)));
    ("vehicleInfo",
      numberToString (year (stored_vehicle booking)) ++ " "
      ++ make (stored_vehicle booking) ++ " "
      ++ model (stored_vehicle booking));
    ("totalAmount", "$" ++ toFixed2 (total (stored_pricing booking)));
    ("location", formatLocationForTemplate (stored_location booking));
    ("estimatedDuration", details_duration (serviceDetails confirmationData));
    ("contactPhone", primaryPhone (confirmed_contactInfo confirmationData));
    ("businessHours", businessHours (confirmed_contactInfo confirmationData));
    ("cancellationPolicy", cancellationPolicy confirmationData);
    ("nextSteps", joinLines (confirmed_nextSteps confirmationData));
    ("preparation", joinLines (preparation (serviceDetails confirmationData))) ].

Definition fullName (c : ContactInfo) : string :=
  firstName c ++ " " ++ lastName c.

Definition prefersEmail (c : ContactInfo) : bool :=
  match preferredContact c with
  | by_email => true
  | _ => false
  end.

Definition sendConfirmationSMS (templatesCache : list NotificationTemplate)
    (confirmationData : BookingConfirmationData) : Dispatch :=
  let contact := stored_contactInfo (confirmed_booking confirmationData) in
  if prefersEmail contact then Completed true
  else
    match getTemplate templatesCache "booking_confirmation_sms" with
    | None => Refused "SMS template not found"
    | Some smsTemplate =>
        Posted (notificationsUrl ++ "/send")
          {| templateId := template_id smsTemplate;
             recipient := {| recipient_email := email contact;
                             recipient_phone := Some (phone contact);
                             recipient_name := fullName contact |};
             variables := createTemplateVariables confirmationData;
             scheduledFor := None;
             channel := channel_sms |}
    end.

(** The requests pushed for one entry of [settings.daysBefore]. *)
Definition remindersFor (reminderTemplate : NotificationTemplate)
    (confirmationData : BookingConfirmationData) (settings : ReminderSettings)
    (days : Z) : list NotificationRequest :=
  let booking := confirmed_booking confirmationData in
  let contact := stored_contactInfo booking in
  let reminderDate := minusDays (scheduledDate booking) days in
  (if remind_email settings then
     [ {| templateId := template_id reminderTemplate;
          recipient := {| recipient_email := email contact;
                          recipient_phone := None;
                          recipient_name := fullName contact |};
          variables :=
            createTemplateVariables confirmationData
            ++ [("daysUntilService", numberToString days);
                ("customMessage",
                  match customMessage settings with
                  | Some m => m
                  | None => ""
                  end)];
          scheduledFor := Some reminderDate;
          channel := channel_email |} ]
   else [])
  ++ (if remind_sms settings && negb (prefersEmail contact) then
        [ {| templateId := template_id reminderTemplate;
             recipient := {| recipient_email := email contact;
                             recipient_phone := Some (phone contact);
                             recipient_name := fullName contact |};
             variables :=
               createTemplateVariables confirmationData
               ++ [("daysUntilService", numberToString days)];
             scheduledFor := Some reminderDate;
             channel := channel_sms |} ]
      else []).

Definition createReminderRequests (templatesCache : list NotificationTemplate)
    (confirmationData : BookingConfirmationData) (settings : ReminderSettings)
  : list NotificationRequest :=
  match getTemplate templatesCache "reminder" with
  | None => []
  | Some reminderTemplate =>
      flat_map (remindersFor reminderTemplate confirmationData settings)
        (daysBefore settings)
  end.

End WithPlatform.

End BookingConfirmationService.

(* ================================================================== *)
(** ** Navigation sequences *)
(* ================================================================== *)

(** A call of one of the navigation methods. *)
Inductive Navigation :=
| GoToStep (n : Z)
| NextStep
| PreviousStep.

Definition navigate (validationService : ValidationService)
    (call : Navigation) (this : Instance) : Instance :=
  match call with
  | GoToStep n => snd (BookingService.goToStep validationService n this)
  | NextStep => snd (BookingService.nextStep validationService this)
  | PreviousStep => snd (BookingService.previousStep validationService this)
  end.

Definition navigateAll (validationService : ValidationService)
    (calls : list Navigation) (this : Instance) : Instance :=
  fold_left (fun i call => navigate validationService call i) calls this.

(** No call asks for a step more than one above the step current at the
    time of the call. *)
Fixpoint stepwise (validationService : ValidationService)
    (calls : list Navigation) (this : Instance) : bool :=
  match calls with
  | [] => true
  | call :: rest =>
      match call with
      | GoToStep n => (n <=? currentStep (bookingStateSubject this) + 1)%Z
      | NextStep | PreviousStep => true
      end
      && stepwise validationService rest (navigate validationService call this)
  end.

(** A call of one of the synchronous public methods of [BookingService]
    (the methods that wait for an HTTP reply are not among them; what they do
    to the form afterwards is an [updateStepData] call). *)
Inductive Call :=
| Navigate (call : Navigation)
| UpdateStepData (step : Z) (data : StepPatch)
| CalculatePricing
| ValidateCurrentStep
| ClearValidationErrors (step : option Z)
| ResetBooking.

Definition perform (validationService : ValidationService)
    (call : Call) (this : Instance) : Instance :=
  match call with
  | Navigate nav => navigate validationService nav this
  | UpdateStepData step data => BookingService.updateStepData step data this
  | CalculatePricing => snd (BookingService.calculatePricing this)
  | ValidateCurrentStep =>
      snd (BookingService.validateCurrentStep validationService this)
  | ClearValidationErrors step =>
      BookingService.clearValidationErrors step this
  | ResetBooking => BookingService.resetBooking this
  end.

Definition performAll (validationService : ValidationService)
    (calls : list Call) (this : Instance) : Instance :=
  fold_left (fun i call => perform validationService call i) calls this.

(* ================================================================== *)
(** ** Sample data *)
(* ================================================================== *)

Module Sample.

Definition clock : Clock := {| currentYear := 2025; today := 1735689600000 |}.

(** The first mock service and the "Premium" mock level of [BookingService]. *)
Definition exteriorWash : ServiceType :=
  {| service_id := "1"; service_name := "Exterior Wash";
     service_description := "Complete exterior cleaning and detailing";
     basePrice := 75; duration := 60; category := exterior;
     service_available := true |}.

Definition premium : ServiceLevel :=
  {| level_id := "premium"; level_name := "Premium";
     level_description := "Enhanced service with premium products";
     priceMultiplier := 1.3;
     features := ["Premium wash"; "Deep vacuum"; "Tire shine";
                  "Interior protection"] |}.

Definition sedanMedium : Vehicle :=
  {| vehicle_id := Some "v1"; make := "Honda"; model := "Accord";
     year := 2020; color := "Blue"; licensePlate := "ABC 123";
     vehicleType := sedan; sizeCategory := medium;
     condition := None; notes := None |}.

Definition truckLarge : Vehicle :=
  {| vehicle_id := Some "v2"; make := "Ford"; model := "F-150";
     year := 2018; color := "Black"; licensePlate := "TRK-9";
     vehicleType := truck; sizeCategory := large;
     condition := Some good; notes := None |}.

Definition surgeSlot : TimeSlot :=
  {| slot_id := "s1"; startTime := {| getTime := 1767258000000 |};
     endTime := {| getTime := 1767261600000 |};
     slot_available := true; price := Some 25%float |}.

Definition contact : ContactInfo :=
  {| firstName := "Ada"; lastName := "Byron"; email := "ada@example.com";
     phone := "555-123-4567"; preferredContact := by_email;
     specialInstructions := None |}.

Definition emptyAddress : Address :=
  {| street := ""; city := ""; state := ""; zipCode := ""; country := "US";
     coordinates := None |}.

Definition homeAddress : Address :=
  {| street := "1 Main St"; city := "Provo"; state := "UT";
     zipCode := "84601"; country := "US"; coordinates := None |}.

Definition form (service : option ServiceType) (level : option ServiceLevel)
    (vehicle : option Vehicle) (date : option Date) (slot : option TimeSlot)
    (loc : Location) (c : ContactInfo) (terms : bool) : BookingFormData :=
  {| step1 := {| selectedService := service; selectedLevel := level;
                 preSelectedService := None |};
     step2 := {| selectedVehicle := vehicle; isNewVehicle := false;
                 vehicles := [] |};
     step3 := {| selectedDate := date; selectedTimeSlot := slot;
                 availableDays := [] |};
     step4 := {| location := loc; contactInfo := c |};
     step5 := {| termsAccepted := terms; marketingOptIn := false;
                 specialRequests := Some "" |} |}.

Definition mobileAt (a : Address) : Location :=
  {| location_type := mobile; address := Some a; shopLocation := None |}.

(** The same location record with [type] switched to ['shop']. *)
Definition shopAt (a : Address) : Location :=
  {| location_type := shop; address := Some a; shopLocation := None |}.

Definition instanceOf (step : Z) (fd : BookingFormData)
    (errors : list BookingValidationError) (p : option PricingBreakdown)
  : Instance :=
  {| bookingStateSubject :=
       {| currentStep := step; isLoading := false; formData := fd;
          validationErrors := errors; pricing := p;
          availableServices := []; availableLevels := [];
          savedVehicles := []; isSubmitting := false;
          submissionError := None |};
     eventSubject := [] |}.

(** Service and level chosen, nothing else entered; still on step 1. *)
Definition serviceChosen : Instance :=
  instanceOf 1
    (form (Some exteriorWash) (Some premium) None None None
       (mobileAt emptyAddress) (contactInfo (step4 (formData BookingService.createInitialState))) false)
    [] None.

(** The pricing scenario: 75 x 1.3 x medium, surge slot 25, mobile. *)
Definition pricingScenario : Instance :=
  instanceOf 3
    (form (Some exteriorWash) (Some premium) (Some sedanMedium)
       (Some {| getTime := 1767225600000 |}) (Some surgeSlot)
       (mobileAt homeAddress) contact false)
    [] None.

(** Everything entered except the vehicle. *)
Definition noVehicle : Instance :=
  instanceOf 5
    (form (Some exteriorWash) (Some premium) None
       (Some {| getTime := 1767225600000 |}) (Some surgeSlot)
       (mobileAt homeAddress) contact true)
    [] None.

(** Valid contact details, shop service, no shop chosen. *)
Definition shopWithoutShop : BookingFormData :=
  form (Some exteriorWash) (Some premium) (Some sedanMedium) None None
    (shopAt emptyAddress) contact false.

Definition mobileEmptyAddress : BookingFormData :=
  form (Some exteriorWash) (Some premium) (Some sedanMedium) None None
    (mobileAt emptyAddress) contact false.

Definition staleError : BookingValidationError :=
  {| error_step := 2; field := "selectedVehicle";
     message := "Selected Vehicle is required"; code := "REQUIRED" |}.

Definition stalePricing : PricingBreakdown :=
  {| servicePrice := 146.25; levelMultiplier := 1.3;
     vehicleSizeMultiplier := 1.5; timeSlotSurcharge := 0;
     locationSurcharge := 25; taxes := 13.7; discounts := 0;
     total := 184.95 |}.

(** A truck is selected and priced; a step-2 error is still recorded. *)
Definition truckPriced : Instance :=
  instanceOf 2
    (form (Some exteriorWash) (Some premium) (Some truckLarge) None None
       (mobileAt emptyAddress) contact false)
    [staleError] (Some stalePricing).

(** A later moment of the wall clock. *)
Definition laterClock : Clock :=
  {| currentYear := 2030; today := 1893456000000 |}.

(** A vehicle built before 1900. *)
Definition modelT : Vehicle :=
  {| vehicle_id := None; make := "Ford"; model := "T";
     year := 1899; color := "Black"; licensePlate := "T 1";
     vehicleType := sedan; sizeCategory := medium;
     condition := None; notes := None |}.

Definition modelTForm : BookingFormData :=
  form None None (Some modelT) None None (mobileAt emptyAddress) contact false.

(** Mobile service with a three-digit ZIP code. *)
Definition shortZipForm : BookingFormData :=
  form None None None None None
    (mobileAt {| street := ""; city := ""; state := ""; zipCode := "123";
                 country := "US"; coordinates := None |})
    contact false.

(** [{ selectedVehicle: null }] *)
Definition deselectVehicle : StepPatch :=
  {| patch_selectedService := None; patch_selectedLevel := None;
     patch_preSelectedService := None;
     patch_selectedVehicle := Some None;
     patch_isNewVehicle := None; patch_vehicles := None;
     patch_selectedDate := None; patch_selectedTimeSlot := None;
     patch_availableDays := None; patch_location := None;
     patch_contactInfo := None; patch_termsAccepted := None;
     patch_marketingOptIn := None; patch_specialRequests := None |}.

(** [{ selectedService: exteriorWash, selectedLevel: premium }] *)
Definition chooseService : StepPatch :=
  {| patch_selectedService := Some (Some exteriorWash);
     patch_selectedLevel := Some (Some premium);
     patch_preSelectedService := None; patch_selectedVehicle := None;
     patch_isNewVehicle := None; patch_vehicles := None;
     patch_selectedDate := None; patch_selectedTimeSlot := None;
     patch_availableDays := None; patch_location := None;
     patch_contactInfo := None; patch_termsAccepted := None;
     patch_marketingOptIn := None; patch_specialRequests := None |}.

(** [{ termsAccepted: true }] *)
Definition acceptTerms : StepPatch :=
  {| patch_selectedService := None; patch_selectedLevel := None;
     patch_preSelectedService := None; patch_selectedVehicle := None;
     patch_isNewVehicle := None; patch_vehicles := None;
     patch_selectedDate := None; patch_selectedTimeSlot := None;
     patch_availableDays := None; patch_location := None;
     patch_contactInfo := None; patch_termsAccepted := Some true;
     patch_marketingOptIn := None; patch_specialRequests := None |}.

(** A short session: choose service and level, pick a vehicle, try to move on
    twice, accept the terms. *)
Definition session : list Call :=
  [UpdateStepData 1 chooseService;
   UpdateStepData 2 (BookingService.vehiclePatch sedanMedium);
   Navigate NextStep; Navigate (GoToStep 5);
   UpdateStepData 5 acceptTerms; ValidateCurrentStep].

(** The pricing scenario again, later in the flow: other date, address,
    terms, recorded errors and stored pricing; same pricing inputs. *)
Definition pricingScenarioLater : Instance :=
  instanceOf 5
    (form (Some exteriorWash) (Some premium) (Some sedanMedium)
       None (Some surgeSlot) (mobileAt emptyAddress) contact true)
    [staleError] (Some stalePricing).

Definition textContact : ContactInfo :=
  {| firstName := "Ada"; lastName := "Byron"; email := "ada@example.com";
     phone := "555-123-4567"; preferredContact := by_text;
     specialInstructions := None |}.

Definition storedBooking (c : ContactInfo) : StoredBooking :=
  {| stored_id := Some "b1"; customerId := None;
     stored_status := status_confirmed;
     stored_service := exteriorWash; stored_serviceLevel := premium;
     stored_vehicle := sedanMedium;
     scheduledDate := {| getTime := 1767225600000 |};
     stored_timeSlot := surgeSlot;
     stored_location := mobileAt homeAddress;
     stored_contactInfo := c;
     stored_pricing := stalePricing;
     stored_paymentStatus := payment_pending; paymentMethod := None;
     stored_specialInstructions := None;
     createdAt := {| getTime := 1767000000000 |};
     updatedAt := {| getTime := 1767000000000 |};
     completedAt := None; rating := None; review := None |}.

Definition confirmation (c : ContactInfo) : BookingConfirmationData :=
  {| confirmed_booking := storedBooking c;
     confirmed_number := "NAS123456";
     estimatedArrival := None;
     confirmed_specialInstructions := None;
     confirmed_contactInfo :=
       {| primaryPhone := "(555) 123-4567";
          businessHours := "Mon-Sat 8:00 AM - 6:00 PM";
          emergencyContact := None |};
     confirmed_nextSteps := ["You will receive a confirmation email shortly"];
     cancellationPolicy :=
       "Free cancellation up to 24 hours before your appointment.";
     serviceDetails :=
       {| details_duration := "1 hour"; whatToExpect := [];
          preparation := [] |} |}.

Definition bothChannels : ReminderSettings :=
  {| remind_email := true; remind_sms := true; daysBefore := [1; 3]%Z;
     customMessage := None |}.

(** Stand-ins for the platform formatters and for the calendar arithmetic
    (whole days of 86400000 ms). *)
Definition isoStamp (d : Date) : string := numberToString (getTime d).
Definition plainAmount (x : float) : string := "0.00".
Definition wholeDaysBefore (d : Date) (days : Z) : Date :=
  {| getTime := getTime d - days * 86400000 |}.

End Sample.

(* ================================================================== *)
(** ** Notions used in the statements *)
(* ================================================================== *)

Import BookingService.

(** The error [applyValidationRule] builds for an empty [selectedDate]. *)
Definition selectedDateRequired : BookingValidationError :=
  {| error_step := 3; field := "selectedDate";
     message := "Selected Date is required"; code := "REQUIRED" |}.

(** The three address fields that carry a required-for-mobile validator. *)
Definition mobileAddressFields : list string :=
  ["location.address.street"; "location.address.city";
   "location.address.zipCode"].

Definition onAddressField (e : BookingValidationError) : bool :=
  existsb (String.eqb (field e)) mobileAddressFields.

(** The instance left behind by [submitBooking] when validation fails. *)
Definition validationFailed (allErrors : list BookingValidationError)
    (this : Instance) : Instance :=
  emitEvent {| event_type := validation_error; event_step := None;
               event_data := None;
               event_error := Some "Please correct all validation errors" |}
    (updateState (set_validationErrors allErrors) this).

(** Every step below the current one passes the completeness check. *)
Definition passedBelow (validationService : ValidationService)
    (this : Instance) : Prop :=
  forall k : Z,
    (1 <= k < currentStep (bookingStateSubject this))%Z ->
    canProceedToNextStep validationService k
      (formData (bookingStateSubject this)) = true.

(** The other errors the statements name. *)
Definition selectedTimeSlotRequired : BookingValidationError :=
  {| error_step := 3; field := "selectedTimeSlot";
     message := "Selected Time Slot is required"; code := "REQUIRED" |}.

Definition invalidZipFormat : BookingValidationError :=
  {| error_step := 4; field := "location.address.zipCode";
     message := "Invalid ZIP code format"; code := "CUSTOM_VALIDATION" |}.

Definition yearOutOfRange (now : Clock) : BookingValidationError :=
  {| error_step := 2; field := "selectedVehicle.year";
     message := "Year must be between 1900 and "
                ++ numberToString (currentYear now + 1);
     code := "CUSTOM_VALIDATION" |}.

(** The stored pricing is what [calculatePricing] would emit now. *)
Definition pricingFresh (this : Instance) : Prop :=
  forall p, fst (calculatePricing this) = Emits p ->
            pricing (bookingStateSubject this) = Some p.

(** The surge price of the selected slot, if there is one. *)
Definition slotPrice (fd : BookingFormData) : option float :=
  match selectedTimeSlot (step3 fd) with
  | Some slot => price slot
  | None => None
  end.

(** [{ ...first, ...second }] on patches. *)
Definition overlay {A} (later earlier : option A) : option A :=
  match later with
  | Some v => Some v
  | None => earlier
  end.

Definition combinePatches (first second : StepPatch) : StepPatch :=
  {| patch_selectedService :=
       overlay (patch_selectedService second) (patch_selectedService first);
     patch_selectedLevel :=
       overlay (patch_selectedLevel second) (patch_selectedLevel first);
     patch_preSelectedService :=
       overlay (patch_preSelectedService second)
         (patch_preSelectedService first);
     patch_selectedVehicle :=
       overlay (patch_selectedVehicle second) (patch_selectedVehicle first);
     patch_isNewVehicle :=
       overlay (patch_isNewVehicle second) (patch_isNewVehicle first);
     patch_vehicles := overlay (patch_vehicles second) (patch_vehicles first);
     patch_selectedDate :=
       overlay (patch_selectedDate second) (patch_selectedDate first);
     patch_selectedTimeSlot :=
       overlay (patch_selectedTimeSlot second) (patch_selectedTimeSlot first);
     patch_availableDays :=
       overlay (patch_availableDays second) (patch_availableDays first);
     patch_location := overlay (patch_location second) (patch_location first);
     patch_contactInfo :=
       overlay (patch_contactInfo second) (patch_contactInfo first);
     patch_termsAccepted :=
       overlay (patch_termsAccepted second) (patch_termsAccepted first);
     patch_marketingOptIn :=
       overlay (patch_marketingOptIn second) (patch_marketingOptIn first);
     patch_specialRequests :=
       overlay (patch_specialRequests second)
         (patch_specialRequests first) |}.

(* ================================================================== *)
(** ** Basic facts *)
(* ================================================================== *)

Lemma MAX_BOOKING_STEPS_is_5 : MAX_BOOKING_STEPS = 5%Z.
Proof. reflexivity. Qed.

Lemma length_zero_nil {A} (l : list A) :
  (List.length l =? 0)%nat = true <-> l = [].
Proof. destruct l; cbn; split; intros H; try reflexivity; discriminate H. Qed.

Lemma filter_nil_when {A} (p : A -> bool) (l : list A) :
  (forall x, In x l -> p x = false) -> filter p l = [].
Proof.
  induction l as [|x l IH]; intros H; [reflexivity|].
  cbn. rewrite (H x (or_introl eq_refl)). apply IH.
  intros y Hy. apply H. right. exact Hy.
Qed.

(* ================================================================== *)
(** ** The rule interpreter *)
(* ================================================================== *)

Section RuleLemmas.

Variables (fieldName : string) (value : any) (rule : ValidationRule)
          (fd : BookingFormData) (step : Z).

Lemma applyValidationRule_required_empty :
  required rule = true ->
  BookingValidationService.isEmpty value = true ->
  BookingValidationService.applyValidationRule fieldName value rule fd step
  = Some (BookingValidationService.mkError step fieldName
            (BookingValidationService.humanizeFieldName fieldName
             ++ " is required") "REQUIRED").
Proof.
  intros Hr He. unfold BookingValidationService.applyValidationRule.
  rewrite Hr, He. reflexivity.
Qed.

(** A rule without [required] never runs on an empty value: the early
    [return null] comes before the length, pattern and custom checks. *)
Lemma applyValidationRule_skips_empty :
  required rule = false ->
  BookingValidationService.isEmpty value = true ->
  BookingValidationService.applyValidationRule fieldName value rule fd step
  = None.
Proof.
  intros Hr He. unfold BookingValidationService.applyValidationRule.
  rewrite Hr, He. reflexivity.
Qed.

Lemma applyValidationRule_field :
  forall e,
    BookingValidationService.applyValidationRule fieldName value rule fd step
    = Some e ->
    field e = fieldName /\ error_step e = step.
Proof.
  intros e. unfold BookingValidationService.applyValidationRule.
  repeat match goal with
         | |- context [if ?b then _ else _] => destruct b
         | |- context [match ?o with Some _ => _ | None => _ end] => destruct o
         end;
    intros H; inversion H; split; reflexivity.
Qed.

End RuleLemmas.

Lemma validateField_field :
  forall fieldName value rules fd step e,
    In e (BookingValidationService.validateField fieldName value rules fd step) ->
    field e = fieldName /\ error_step e = step.
Proof.
  intros fieldName value rules fd step e.
  unfold BookingValidationService.validateField.
  rewrite in_flat_map. intros (rule & _ & Hin).
  destruct (BookingValidationService.applyValidationRule
              fieldName value rule fd step) as [e'|] eqn:E.
  - destruct Hin as [<- | []].
    exact (applyValidationRule_field _ _ _ _ _ _ E).
  - destruct Hin.
Qed.

Lemma filter_other_field :
  forall fieldName value rules fd step,
    existsb (String.eqb fieldName) mobileAddressFields = false ->
    filter onAddressField
      (BookingValidationService.validateField fieldName value rules fd step)
    = [].
Proof.
  intros fieldName value rules fd step Hf. apply filter_nil_when.
  intros e He. unfold onAddressField.
  apply validateField_field in He as [-> _]. exact Hf.
Qed.

Lemma validateField_custom_empty :
  forall fieldName value f fd step,
    BookingValidationService.isEmpty value = true ->
    BookingValidationService.validateField fieldName value
      [rule_custom f] fd step = [].
Proof.
  intros fieldName value f fd step He.
  unfold BookingValidationService.validateField. cbn [flat_map].
  rewrite applyValidationRule_skips_empty by (reflexivity || exact He).
  reflexivity.
Qed.

Lemma canProceed_isStepValid :
  forall now step fd,
    BookingValidationService.canProceedToNextStep now step fd = true ->
    BookingValidationService.validateStep now step fd = [].
Proof.
  intros now step fd. unfold BookingValidationService.canProceedToNextStep.
  destruct (BookingValidationService.isStepValid now step fd) eqn:E;
    cbn [negb]; [|discriminate].
  intros _. apply length_zero_nil. exact E.
Qed.

(* ================================================================== *)
(** ** Step validation *)
(* ================================================================== *)

Lemma isEmpty_selectedDate :
  forall o : option Date,
    BookingValidationService.isEmpty (nullable Date_any o) = true.
Proof. intros [d|]; reflexivity. Qed.

Lemma selectedDate_value :
  forall fd,
    BookingValidationService.getNestedValue (stepData fd key_step3) "selectedDate"
    = nullable Date_any (selectedDate (step3 fd)).
Proof. intros fd. reflexivity. Qed.

Lemma validateStep3_head :
  forall now fd, exists rest,
    BookingValidationService.validateStep now 3 fd
    = selectedDateRequired :: rest.
Proof.
  intros now fd. unfold BookingValidationService.validateStep.
  cbn [getStepKey BookingValidationService.createValidationSchema flat_map].
  rewrite selectedDate_value.
  unfold BookingValidationService.validateField at 1. cbn [flat_map].
  rewrite applyValidationRule_required_empty
    by (reflexivity || apply isEmpty_selectedDate).
  eexists. reflexivity.
Qed.

(** With the validation service the application provides, the full form is
    never free of errors: step 3 always contributes one. *)
Lemma validateAllSteps_never_empty :
  forall now fd, BookingValidationService.validateAllSteps now fd <> [].
Proof.
  intros now fd H. destruct (validateStep3_head now fd) as [rest E].
  unfold BookingValidationService.validateAllSteps in H. cbn [flat_map] in H.
  rewrite E in H.
  destruct (BookingValidationService.validateStep now 1 fd); [|discriminate H].
  destruct (BookingValidationService.validateStep now 2 fd); discriminate H.
Qed.

(** C3. For every form data, [validateStep(3, formData)] contains an error
    with code ['REQUIRED'] for field ['selectedDate'], whether
    [step3.selectedDate] is [null] or holds a [Date]: [isEmpty] answers [true]
    on every [Date] (an object without own enumerable keys). Hence
    [isStepValid(3, formData)] and [canProceedToNextStep(3, formData)] are
    [false] for every form data. *)
Theorem selectedDate_always_required :
  forall (now : Clock) (fd : BookingFormData),
    (exists e, In e (BookingValidationService.validateStep now 3 fd)
               /\ code e = "REQUIRED" /\ field e = "selectedDate")
    /\ (forall d : Date, BookingValidationService.isEmpty (Date_any d) = true)
    /\ BookingValidationService.isStepValid now 3 fd = false
    /\ BookingValidationService.canProceedToNextStep now 3 fd = false.
Proof.
  intros now fd. destruct (validateStep3_head now fd) as [rest E].
  assert (Hv : BookingValidationService.isStepValid now 3 fd = false).
  { unfold BookingValidationService.isStepValid. rewrite E. reflexivity. }
  repeat apply conj.
  - exists selectedDateRequired. rewrite E.
    split; [left; reflexivity | split; reflexivity].
  - intros d. reflexivity.
  - exact Hv.
  - unfold BookingValidationService.canProceedToNextStep. rewrite Hv.
    reflexivity.
Qed.

Lemma address_field_values :
  forall fd a,
    address (location (step4 fd)) = Some a ->
    BookingValidationService.getNestedValue (stepData fd key_step4)
      "location.address.street" = JsString (street a)
    /\ BookingValidationService.getNestedValue (stepData fd key_step4)
         "location.address.city" = JsString (city a)
    /\ BookingValidationService.getNestedValue (stepData fd key_step4)
         "location.address.zipCode" = JsString (zipCode a).
Proof.
  intros fd a Ha.
  destruct fd as [s1 s2 s3 [[ty addr shp] contact] s5]. cbn in Ha. subst addr.
  destruct a. repeat apply conj; reflexivity.
Qed.

(** C4 (what the code does). For every form data whose address has an empty
    street, city and ZIP code, [validateStep(4, formData)] holds no error at
    all for [location.address.street], [location.address.city] and
    [location.address.zipCode], whatever the location type, ['mobile']
    included: the three required-for-mobile validators are [custom] rules,
    and [applyValidationRule] returns before a custom rule when the value is
    empty. *)
Theorem empty_mobile_address_not_reported :
  forall (now : Clock) (fd : BookingFormData) (a : Address),
    address (location (step4 fd)) = Some a ->
    street a = "" -> city a = "" -> zipCode a = "" ->
    filter onAddressField (BookingValidationService.validateStep now 4 fd) = [].
Proof.
  intros now fd a Ha Hs Hc Hz.
  destruct (address_field_values fd a Ha) as (Vs & Vc & Vz).
  rewrite Hs in Vs. rewrite Hc in Vc. rewrite Hz in Vz.
  unfold BookingValidationService.validateStep.
  cbn [getStepKey BookingValidationService.createValidationSchema flat_map].
  rewrite Vs, Vc, Vz.
  rewrite !validateField_custom_empty by reflexivity.
  rewrite !filter_app.
  rewrite !filter_other_field by reflexivity.
  reflexivity.
Qed.

Lemma empty_mobile_address_not_reported_witness :
  location_type (location (step4 Sample.mobileEmptyAddress)) = mobile
  /\ filter onAddressField
       (BookingValidationService.validateStep Sample.clock 4
          Sample.mobileEmptyAddress) = [].
Proof.
  split; [reflexivity|].
  apply (empty_mobile_address_not_reported Sample.clock
           Sample.mobileEmptyAddress Sample.emptyAddress);
    reflexivity.
Defined.

(** C8. For every step number and form data, a non-empty
    [validateStep(step, formData)] makes [canProceedToNextStep(step, formData)]
    [false]; and there are a step and a form data (step 4, shop service
    without a chosen shop, valid contact details) for which [validateStep]
    is empty and [canProceedToNextStep] is still [false]. *)
Theorem canProceed_needs_valid_step :
  (forall now step fd,
      BookingValidationService.validateStep now step fd <> [] ->
      BookingValidationService.canProceedToNextStep now step fd = false)
  /\ (forall now, exists step fd,
         BookingValidationService.validateStep now step fd = []
         /\ BookingValidationService.canProceedToNextStep now step fd = false).
Proof.
  split.
  - intros now step fd H.
    destruct (BookingValidationService.canProceedToNextStep now step fd) eqn:E;
      [|reflexivity].
    apply canProceed_isStepValid in E. contradiction.
  - intros now. exists 4%Z, Sample.shopWithoutShop.
    split; vm_compute; reflexivity.
Qed.

Lemma canProceed_needs_valid_step_witness :
  BookingValidationService.canProceedToNextStep Sample.clock 1
    (formData createInitialState) = false.
Proof.
  apply (proj1 canProceed_needs_valid_step Sample.clock 1%Z
           (formData createInitialState)).
  vm_compute. discriminate.
Defined.

(* ================================================================== *)
(** ** Pricing *)
(* ================================================================== *)

(** C1. When service, level and vehicle are all selected, [calculatePricing]
    produces (and stores) a breakdown [p] with
    [servicePrice = basePrice * levelMultiplier * vehicleSizeMultiplier], the
    size multiplier read from the table small 1.0, medium 1.2, large 1.5,
    xlarge 2.0; a time-slot surcharge that is 0 without a slot or without a
    slot price and the slot price otherwise; a location surcharge of 25 for
    mobile and 0 for shop; [taxes = (servicePrice + surcharges) * 0.08];
    [discounts = 0]; [total = servicePrice + surcharges + taxes]. For base
    price 75, multiplier 1.3, a medium vehicle, slot surcharge 25 and mobile
    service: 117, 50, 13.36 and 180.36. All arithmetic is binary64. *)
Theorem calculatePricing_breakdown :
  forall (this : Instance) (service : ServiceType) (level : ServiceLevel)
         (vehicle : Vehicle),
    let fd := formData (bookingStateSubject this) in
    selectedService (step1 fd) = Some service ->
    selectedLevel (step1 fd) = Some level ->
    selectedVehicle (step2 fd) = Some vehicle ->
    exists p : PricingBreakdown,
      calculatePricing this
      = (Emits p, updateState (set_pricing (Some p)) this)
      /\ vehicleSizeMultiplier p
         = match sizeCategory vehicle with
           | small => 1.0 | medium => 1.2 | large => 1.5 | xlarge => 2.0
           end%float
      /\ servicePrice p
         = (basePrice service * priceMultiplier level
            * vehicleSizeMultiplier p)%float
      /\ (selectedTimeSlot (step3 fd) = None -> timeSlotSurcharge p = 0%float)
      /\ (forall slot, selectedTimeSlot (step3 fd) = Some slot ->
            price slot = None -> timeSlotSurcharge p = 0%float)
      /\ (forall slot x, selectedTimeSlot (step3 fd) = Some slot ->
            price slot = Some x -> truthyFloat x = true ->
            timeSlotSurcharge p = x)
      /\ locationSurcharge p
         = match location_type (location (step4 fd)) with
           | mobile => 25 | shop => 0
           end%float
      /\ taxes p
         = ((servicePrice p + (timeSlotSurcharge p + locationSurcharge p))
            * 0.08)%float
      /\ discounts p = 0%float
      /\ total p
         = (servicePrice p + (timeSlotSurcharge p + locationSurcharge p)
            + taxes p)%float
      /\ (basePrice service = 75%float ->
          priceMultiplier level = 1.3%float ->
          sizeCategory vehicle = medium ->
          timeSlotSurcharge p = 25%float ->
          location_type (location (step4 fd)) = mobile ->
          servicePrice p = 117%float
          /\ (timeSlotSurcharge p + locationSurcharge p)%float = 50%float
          /\ taxes p = 13.36%float
          /\ total p = 180.36%float).
Proof.
  intros this service level vehicle fd Hs Hl Hv.
  subst fd. unfold calculatePricing. rewrite Hs, Hl, Hv.
  eexists. split; [reflexivity|].
  cbn [vehicleSizeMultiplier servicePrice timeSlotSurcharge locationSurcharge
       taxes discounts total].
  repeat apply conj.
  - destruct (sizeCategory vehicle); reflexivity.
  - reflexivity.
  - intros H. rewrite H. reflexivity.
  - intros slot H Hp. rewrite H. unfold slotSurcharge. rewrite Hp.
    reflexivity.
  - intros slot x H Hp Hx. rewrite H. unfold slotSurcharge. rewrite Hp, Hx.
    reflexivity.
  - destruct (location_type _); reflexivity.
  - reflexivity.
  - reflexivity.
  - reflexivity.
  - intros Hb Hm Hsz Hslot Hloc. rewrite Hb, Hm, Hsz, Hslot, Hloc.
    repeat apply conj; reflexivity.
Qed.

Lemma calculatePricing_breakdown_witness :
  exists p, fst (calculatePricing Sample.pricingScenario) = Emits p
            /\ servicePrice p = 117%float /\ taxes p = 13.36%float
            /\ total p = 180.36%float.
Proof.
  destruct (calculatePricing_breakdown Sample.pricingScenario
              Sample.exteriorWash Sample.premium Sample.sedanMedium
              eq_refl eq_refl eq_refl)
    as (p & Hrun & _ & _ & _ & _ & Hslot & _ & _ & _ & _ & Hscenario).
  exists p. rewrite Hrun.
  destruct (Hscenario eq_refl eq_refl eq_refl
              (Hslot Sample.surgeSlot 25%float eq_refl eq_refl eq_refl) eq_refl)
    as (H1 & _ & H3 & H4).
  repeat split; assumption.
Defined.

(** C5. When the selected service, the selected level or the selected
    vehicle is [null], [calculatePricing] returns the error
    "Required selections not complete", delivers no breakdown, and leaves the
    instance, its stored pricing included, exactly as it was. *)
Theorem calculatePricing_missing_selection :
  forall this : Instance,
    let fd := formData (bookingStateSubject this) in
    selectedService (step1 fd) = None
    \/ selectedLevel (step1 fd) = None
    \/ selectedVehicle (step2 fd) = None ->
    calculatePricing this
    = (ThrowError "Required selections not complete", this)
    /\ (forall p, fst (calculatePricing this) <> Emits p)
    /\ pricing (bookingStateSubject (snd (calculatePricing this)))
       = pricing (bookingStateSubject this).
Proof.
  intros this fd H.
  assert (E : calculatePricing this
              = (ThrowError "Required selections not complete", this)).
  { unfold calculatePricing. subst fd.
    destruct (selectedService _) as [service|];
      destruct (selectedLevel _) as [level|];
      destruct (selectedVehicle _) as [vehicle|];
      try reflexivity.
    destruct H as [H | [H | H]]; discriminate H. }
  rewrite E. repeat apply conj.
  - reflexivity.
  - intros p Hp. discriminate Hp.
  - reflexivity.
Qed.

Lemma calculatePricing_missing_selection_witness :
  calculatePricing Sample.noVehicle
  = (ThrowError "Required selections not complete", Sample.noVehicle).
Proof.
  apply (calculatePricing_missing_selection Sample.noVehicle).
  right; right; reflexivity.
Defined.

(** C10. When service and level are selected and the patch of
    [updateStepData(2, patch)] sets [selectedVehicle] to a vehicle, the
    pricing recomputation runs on the state just written: that state holds
    the new vehicle and no validation error of step 2, and the pricing stored
    after the call has the size-table factor of the new vehicle's
    [sizeCategory] as its [vehicleSizeMultiplier]. *)
Theorem updateStepData_vehicle_reprices :
  forall (this : Instance) (data : StepPatch)
         (service : ServiceType) (level : ServiceLevel) (vehicle : Vehicle),
    let fd := formData (bookingStateSubject this) in
    selectedService (step1 fd) = Some service ->
    selectedLevel (step1 fd) = Some level ->
    patch_selectedVehicle data = Some (Some vehicle) ->
    exists (written : Instance) (p : PricingBreakdown),
      (* the state that the recomputation reads *)
      selectedVehicle (step2 (formData (bookingStateSubject written)))
      = Some vehicle
      /\ (forall e, In e (validationErrors (bookingStateSubject written)) ->
                    error_step e <> 2%Z)
      /\ calculatePricing written
         = (Emits p, updateState (set_pricing (Some p)) written)
      (* the state after the call *)
      /\ updateStepData 2 data this
         = emitEvent {| event_type := data_updated; event_step := Some 2%Z;
                        event_data := Some (key_step2, data);
                        event_error := None |}
             (snd (calculatePricing written))
      /\ pricing (bookingStateSubject (updateStepData 2 data this)) = Some p
      /\ vehicleSizeMultiplier p
         = VEHICLE_SIZE_MULTIPLIERS (sizeCategory vehicle)
      /\ (forall e,
            In e (validationErrors
                    (bookingStateSubject (updateStepData 2 data this))) ->
            error_step e <> 2%Z).
Proof.
  intros this data service level vehicle fd Hs Hl Hp. subst fd.
  set (written :=
         updateState
           (fun s =>
              set_validationErrors
                (filter (fun error => negb (error_step error =? 2)%Z)
                   (validationErrors (bookingStateSubject this)))
                (set_formData
                   (mergeStep (formData (bookingStateSubject this))
                      key_step2 data) s)) this).
  assert (Hclear : forall e,
             In e (validationErrors (bookingStateSubject written)) ->
             error_step e <> 2%Z).
  { intros e He. cbn in He. apply filter_In in He as [_ He].
    intros E. rewrite E in He. discriminate He. }
  assert (Hpr : exists p,
             calculatePricing written
             = (Emits p, updateState (set_pricing (Some p)) written)
             /\ vehicleSizeMultiplier p
                = VEHICLE_SIZE_MULTIPLIERS (sizeCategory vehicle)).
  { unfold calculatePricing.
    cbn [written updateState bookingStateSubject set_validationErrors
         set_formData formData mergeStep step1 step2 selectedService
         selectedLevel selectedVehicle].
    rewrite Hs, Hl, Hp. cbn [override].
    eexists. split; reflexivity. }
  destruct Hpr as (p & Hrun & Hsize).
  assert (Hcall : updateStepData 2 data this
                  = emitEvent {| event_type := data_updated;
                                 event_step := Some 2%Z;
                                 event_data := Some (key_step2, data);
                                 event_error := None |}
                      (snd (calculatePricing written))) by reflexivity.
  exists written, p. repeat apply conj.
  - cbn. rewrite Hp. reflexivity.
  - exact Hclear.
  - exact Hrun.
  - exact Hcall.
  - rewrite Hcall, Hrun. reflexivity.
  - exact Hsize.
  - rewrite Hcall, Hrun. exact Hclear.
Qed.

Lemma updateStepData_vehicle_reprices_witness :
  exists p,
    pricing (bookingStateSubject
               (updateStepData 2 (vehiclePatch Sample.sedanMedium)
                  Sample.truckPriced)) = Some p
    /\ vehicleSizeMultiplier p = 1.2%float
    /\ vehicleSizeMultiplier Sample.stalePricing = 1.5%float.
Proof.
  destruct (updateStepData_vehicle_reprices Sample.truckPriced
              (vehiclePatch Sample.sedanMedium)
              Sample.exteriorWash Sample.premium Sample.sedanMedium
              eq_refl eq_refl eq_refl)
    as (written & p & _ & _ & _ & _ & Hp & Hsize & _).
  exists p. repeat apply conj; [exact Hp | exact Hsize | reflexivity].
Defined.

(* ================================================================== *)
(** ** Navigation *)
(* ================================================================== *)

(** C9. For every instance and every integer [n] below 1 or above 5,
    [goToStep(n)] returns the error "Invalid step: n" and the instance after
    the call is the instance before it: current step, form data, validation
    errors, pricing and emitted events are untouched. *)
Theorem goToStep_out_of_range :
  forall (validationService : ValidationService) (this : Instance) (n : Z),
    (n < 1 \/ n > 5)%Z ->
    goToStep validationService n this
    = (ThrowError ("Invalid step: " ++ numberToString n), this).
Proof.
  intros vs this n H. unfold goToStep. rewrite MAX_BOOKING_STEPS_is_5.
  destruct (Z.ltb_spec n 1) as [Hlt | Hge]; [reflexivity |].
  destruct (Z.ltb_spec 5 n) as [Hgt | Hle]; [reflexivity |].
  lia.
Qed.

Lemma goToStep_out_of_range_witness :
  goToStep (bookingValidationService Sample.clock) 6 Sample.pricingScenario
  = (ThrowError "Invalid step: 6", Sample.pricingScenario).
Proof.
  apply (goToStep_out_of_range (bookingValidationService Sample.clock)
           Sample.pricingScenario 6).
  right; lia.
Defined.

Section NavigationLemmas.

Variable vs : ValidationService.

Lemma goToStep_formData :
  forall n this,
    formData (bookingStateSubject (snd (goToStep vs n this)))
    = formData (bookingStateSubject this).
Proof.
  intros n this. unfold goToStep.
  repeat match goal with |- context [if ?b then _ else _] => destruct b end;
    reflexivity.
Qed.

Lemma navigate_formData :
  forall call this,
    formData (bookingStateSubject (navigate vs call this))
    = formData (bookingStateSubject this).
Proof. intros [n| |] this; apply goToStep_formData. Qed.

Lemma navigateAll_formData :
  forall calls this,
    formData (bookingStateSubject (navigateAll vs calls this))
    = formData (bookingStateSubject this).
Proof.
  induction calls as [|call rest IH]; intros this; [reflexivity|].
  change (navigateAll vs (call :: rest) this)
    with (navigateAll vs rest (navigate vs call this)).
  rewrite IH. apply navigate_formData.
Qed.

(** A call either leaves the step where it is, or moves to the requested
    step, which lies in [1,5]; a forward move needs the completeness check of
    the step being left. *)
Lemma goToStep_currentStep :
  forall n this,
    let c := currentStep (bookingStateSubject this) in
    let c' := currentStep (bookingStateSubject (snd (goToStep vs n this))) in
    c' = c
    \/ (c' = n /\ (1 <= n <= 5)%Z
        /\ ((c < n)%Z ->
            canProceedToNextStep vs c (formData (bookingStateSubject this))
            = true)).
Proof.
  intros n this. cbn zeta. unfold goToStep. rewrite MAX_BOOKING_STEPS_is_5.
  destruct (Z.ltb_spec n 1); [left; reflexivity|].
  destruct (Z.ltb_spec 5 n); [left; reflexivity|].
  cbn [orb].
  destruct (Z.ltb_spec (currentStep (bookingStateSubject this)) n) as [Hlt|Hge].
  - destruct (canProceedToNextStep vs _ _) eqn:E; cbn [andb negb snd].
    + right. repeat split; try lia.
    + left. reflexivity.
  - cbn [andb snd]. right. repeat split; try lia.
Qed.

Lemma navigate_passedBelow :
  forall call this,
    match call with
    | GoToStep n => (n <=? currentStep (bookingStateSubject this) + 1)%Z
    | _ => true
    end = true ->
    passedBelow vs this -> passedBelow vs (navigate vs call this).
Proof.
  intros call this Hadj Inv k Hk.
  rewrite navigate_formData.
  assert (G : exists n,
             navigate vs call this = snd (goToStep vs n this)
             /\ (n <= currentStep (bookingStateSubject this) + 1)%Z).
  { destruct call as [n| |].
    - exists n. split; [reflexivity | apply Z.leb_le; exact Hadj].
    - eexists. split; [reflexivity | lia].
    - eexists. split; [reflexivity | lia]. }
  destruct G as (n & E & Hn). rewrite E in Hk.
  destruct (goToStep_currentStep n this) as [Hc | (Hc & Hr & Hp)].
  - apply Inv. rewrite <- Hc. exact Hk.
  - rewrite Hc in Hk.
    destruct (Z.eq_dec k (currentStep (bookingStateSubject this)))
      as [-> | Hne].
    + apply Hp. lia.
    + apply Inv. lia.
Qed.

Lemma navigateAll_passedBelow :
  forall calls this,
    stepwise vs calls this = true ->
    passedBelow vs this -> passedBelow vs (navigateAll vs calls this).
Proof.
  induction calls as [|call rest IH]; intros this Hadj Inv; [exact Inv|].
  cbn [stepwise] in Hadj. apply andb_prop in Hadj as [H1 H2].
  change (navigateAll vs (call :: rest) this)
    with (navigateAll vs rest (navigate vs call this)).
  apply IH; [exact H2|].
  apply navigate_passedBelow; assumption.
Qed.

End NavigationLemmas.

(** C2 as stated fails: from step 1 with service and level chosen and no
    vehicle entered, the single call [goToStep(5)] succeeds, so the current
    step is above step 2 although step 2 has validation errors and fails its
    completeness check. *)
Lemma jump_skips_validation :
  let vs := bookingValidationService Sample.clock in
  let this := Sample.serviceChosen in
  let this' := navigateAll vs [GoToStep 5] this in
  currentStep (bookingStateSubject this) = 1%Z
  /\ currentStep (bookingStateSubject this') = 5%Z
  /\ BookingValidationService.validateStep Sample.clock 2
       (formData (bookingStateSubject this')) <> []
  /\ BookingValidationService.canProceedToNextStep Sample.clock 2
       (formData (bookingStateSubject this')) = false.
Proof. vm_compute. repeat split; discriminate. Qed.

(** C2 (amended). Start on step 1 and make any sequence of [goToStep],
    [nextStep] and [previousStep] calls in which no call asks for a step more
    than one above the step current at that time. The form data is unchanged,
    and every step below the resulting current step passes the validation
    engine with zero errors and satisfies [canProceedToNextStep] (form data
    and clock as at the calls). *)
Theorem stepwise_navigation_checked :
  forall (now : Clock) (this : Instance) (calls : list Navigation) (k : Z),
    let vs := bookingValidationService now in
    let fd := formData (bookingStateSubject this) in
    currentStep (bookingStateSubject this) = 1%Z ->
    stepwise vs calls this = true ->
    (1 <= k < currentStep (bookingStateSubject (navigateAll vs calls this)))%Z ->
    formData (bookingStateSubject (navigateAll vs calls this)) = fd
    /\ BookingValidationService.validateStep now k fd = []
    /\ BookingValidationService.canProceedToNextStep now k fd = true.
Proof.
  intros now this calls k vs fd H1 Hs Hk.
  assert (P : passedBelow vs (navigateAll vs calls this)).
  { apply navigateAll_passedBelow; [exact Hs|].
    intros j Hj. rewrite H1 in Hj. lia. }
  specialize (P k Hk). rewrite navigateAll_formData in P.
  split; [apply navigateAll_formData|].
  split; [apply canProceed_isStepValid|]; exact P.
Qed.

Lemma stepwise_navigation_checked_witness :
  currentStep
    (bookingStateSubject
       (navigateAll (bookingValidationService Sample.clock) [NextStep]
          Sample.serviceChosen)) = 2%Z
  /\ BookingValidationService.validateStep Sample.clock 1
       (formData (bookingStateSubject Sample.serviceChosen)) = []
  /\ BookingValidationService.canProceedToNextStep Sample.clock 1
       (formData (bookingStateSubject Sample.serviceChosen)) = true.
Proof.
  split; [vm_compute; reflexivity|].
  apply (stepwise_navigation_checked Sample.clock Sample.serviceChosen
           [NextStep] 1%Z).
  - reflexivity.
  - vm_compute. reflexivity.
  - vm_compute. split; [discriminate | reflexivity].
Defined.

(* ================================================================== *)
(** ** Submission *)
(* ================================================================== *)

Lemma submitBooking_rejects :
  forall (vs : ValidationService) (this : Instance),
    validateAllSteps vs (formData (bookingStateSubject this)) <> [] ->
    submitBooking vs this
    = (ThrowError "Validation errors exist",
       validationFailed
         (validateAllSteps vs (formData (bookingStateSubject this))) this).
Proof.
  intros vs this H. unfold submitBooking.
  destruct (validateAllSteps vs _) as [|e l]; [contradiction|]. reflexivity.
Qed.

(** Once validation has passed there is no further check: the request body
    carries the stored pricing as it is. *)
Lemma submitBooking_posts_stored_pricing :
  forall (vs : ValidationService) (this : Instance),
    validateAllSteps vs (formData (bookingStateSubject this)) = [] ->
    fst (submitBooking vs this)
    = HttpPost apiBaseUrl
        (createBookingFromFormData (formData (bookingStateSubject this))
           (pricing (bookingStateSubject this))).
Proof.
  intros vs this H. unfold submitBooking. rewrite H. reflexivity.
Qed.

Lemma selectedVehicle_value :
  forall fd,
    selectedVehicle (step2 fd) = None ->
    BookingValidationService.getNestedValue (stepData fd key_step2)
      "selectedVehicle" = JsNull.
Proof.
  intros fd H. destruct fd as [s1 [v nv vs] s3 s4 s5]. cbn in H. subst v.
  reflexivity.
Qed.

Lemma missing_vehicle_step2_error :
  forall now fd,
    selectedVehicle (step2 fd) = None ->
    exists e, In e (BookingValidationService.validateAllSteps now fd)
              /\ error_step e = 2%Z
              /\ field e = "selectedVehicle" /\ code e = "REQUIRED".
Proof.
  intros now fd H.
  exists (BookingValidationService.mkError 2 "selectedVehicle"
            "Selected Vehicle is required" "REQUIRED").
  split; [|repeat split].
  unfold BookingValidationService.validateAllSteps. cbn [flat_map].
  apply in_or_app. right. apply in_or_app. left.
  unfold BookingValidationService.validateStep.
  cbn [getStepKey BookingValidationService.createValidationSchema flat_map].
  rewrite (selectedVehicle_value fd H).
  apply in_or_app. left. left. reflexivity.
Qed.

(** C6. If [validateAllSteps] over the form returns a non-empty list,
    [submitBooking] returns the error "Validation errors exist", records
    exactly that list as the state's validation errors, emits a
    [validation_error] event and performs no HTTP POST. In particular, a form
    without a selected vehicle has a step-2 error in that list and is
    rejected in this way. *)
Theorem submitBooking_rejects_invalid_form :
  forall (now : Clock) (this : Instance),
    let vs := bookingValidationService now in
    let fd := formData (bookingStateSubject this) in
    (BookingValidationService.validateAllSteps now fd <> [] ->
       submitBooking vs this
       = (ThrowError "Validation errors exist",
          validationFailed (BookingValidationService.validateAllSteps now fd)
            this)
       /\ validationErrors (bookingStateSubject (snd (submitBooking vs this)))
          = BookingValidationService.validateAllSteps now fd
       /\ forall url body, fst (submitBooking vs this) <> HttpPost url body)
    /\ (selectedVehicle (step2 fd) = None ->
          (exists e, In e (BookingValidationService.validateAllSteps now fd)
                     /\ error_step e = 2%Z)
          /\ fst (submitBooking vs this)
             = ThrowError "Validation errors exist").
Proof.
  intros now this vs fd.
  assert (G : BookingValidationService.validateAllSteps now fd <> [] ->
              submitBooking vs this
              = (ThrowError "Validation errors exist",
                 validationFailed
                   (BookingValidationService.validateAllSteps now fd) this)).
  { intros H. apply (submitBooking_rejects vs this). exact H. }
  split.
  - intros H. rewrite (G H). repeat apply conj.
    + reflexivity.
    + reflexivity.
    + intros url body E. discriminate E.
  - intros Hv.
    destruct (missing_vehicle_step2_error now fd Hv) as (e & Hin & Hstep & _).
    split; [exists e; split; assumption|].
    rewrite G; [reflexivity|].
    intros E. rewrite E in Hin. destruct Hin.
Qed.

Lemma submitBooking_rejects_invalid_form_witness :
  let vs := bookingValidationService Sample.clock in
  validationErrors (bookingStateSubject (snd (submitBooking vs Sample.noVehicle)))
  = BookingValidationService.validateAllSteps Sample.clock
      (formData (bookingStateSubject Sample.noVehicle))
  /\ fst (submitBooking vs Sample.noVehicle)
     = ThrowError "Validation errors exist".
Proof.
  cbn zeta. split.
  - apply (proj1 (submitBooking_rejects_invalid_form Sample.clock
                    Sample.noVehicle)).
    vm_compute. discriminate.
  - apply (proj2 (submitBooking_rejects_invalid_form Sample.clock
                    Sample.noVehicle)).
    reflexivity.
Defined.

(* ================================================================== *)
(** ** Further properties of [BookingValidationService] *)
(* ================================================================== *)

Lemma getStepKey_range :
  forall step key, getStepKey step = Some key -> (1 <= step <= 5)%Z.
Proof.
  intros step key. unfold getStepKey.
  destruct step as [|p|p]; try discriminate.
  destruct p as [[p|p|]|[p|p|]|]; try discriminate;
    try (destruct p; try discriminate); intros _; lia.
Qed.

Lemma getStepKey_out_of_range :
  forall step, (step < 1 \/ step > 5)%Z -> getStepKey step = None.
Proof.
  intros step H. destruct (getStepKey step) as [key|] eqn:E; [|reflexivity].
  apply getStepKey_range in E. lia.
Qed.

(** Every error of a step comes from one entry of the step's schema. *)
Lemma validateStep_entry :
  forall now step fd e,
    In e (BookingValidationService.validateStep now step fd) ->
    exists key fieldName rules,
      getStepKey step = Some key
      /\ In (fieldName, rules)
           (BookingValidationService.createValidationSchema now key)
      /\ In e (BookingValidationService.validateField fieldName
                 (BookingValidationService.getNestedValue (stepData fd key)
                    fieldName)
                 rules fd step).
Proof.
  intros now step fd e. unfold BookingValidationService.validateStep.
  destruct (getStepKey step) as [key|]; [|intros []].
  rewrite in_flat_map. intros ([fieldName rules] & Hin & He).
  exists key, fieldName, rules. repeat split; assumption.
Qed.

Lemma validateStep_error_step :
  forall now step fd e,
    In e (BookingValidationService.validateStep now step fd) ->
    error_step e = step.
Proof.
  intros now step fd e He.
  destruct (validateStep_entry now step fd e He)
    as (key & fieldName & rules & _ & _ & Hf).
  apply validateField_field in Hf as [_ Hstep]. exact Hstep.
Qed.

Lemma filter_all {A} (p : A -> bool) (l : list A) :
  (forall x, In x l -> p x = true) -> filter p l = l.
Proof.
  induction l as [|x l IH]; intros H; [reflexivity|].
  cbn. rewrite (H x (or_introl eq_refl)). f_equal. apply IH.
  intros y Hy. apply H. right. exact Hy.
Qed.

Lemma filter_filter_same {A} (p : A -> bool) (l : list A) :
  filter p (filter p l) = filter p l.
Proof.
  apply filter_all. intros x Hx. apply filter_In in Hx as [_ Hx]. exact Hx.
Qed.

Lemma filter_filter_neg {A} (p : A -> bool) (l : list A) :
  filter p (filter (fun x => negb (p x)) l) = [].
Proof.
  apply filter_nil_when. intros x Hx. apply filter_In in Hx as [_ Hx].
  destruct (p x); [discriminate Hx | reflexivity].
Qed.

(** X1. Every error returned by [validateStep(step, formData)] carries that
    step number, the step lies in 1..5, and the error's field is one of the
    keys of the step's schema. *)
Theorem validateStep_errors_carry_step :
  forall now step fd e,
    In e (BookingValidationService.validateStep now step fd) ->
    error_step e = step
    /\ (1 <= step <= 5)%Z
    /\ exists key,
         getStepKey step = Some key
         /\ In (field e)
              (map fst
                 (BookingValidationService.createValidationSchema now key)).
Proof.
  intros now step fd e He.
  destruct (validateStep_entry now step fd e He)
    as (key & fieldName & rules & Hk & Hs & Hf).
  apply validateField_field in Hf as [Hfield Hstep].
  split; [exact Hstep|]. split; [apply (getStepKey_range step key Hk)|].
  exists key. split; [exact Hk|].
  rewrite Hfield. apply (in_map fst _ _ Hs).
Qed.

Lemma validateStep_errors_carry_step_witness :
  error_step selectedDateRequired = 3%Z.
Proof.
  apply (validateStep_errors_carry_step Sample.clock 3
           (formData createInitialState) selectedDateRequired).
  vm_compute. left. reflexivity.
Defined.

(** X2. For a step number outside 1..5, [validateStep] returns no error and
    [canProceedToNextStep] answers [true]. *)
Theorem unknown_step_passes :
  forall now step fd,
    (step < 1 \/ step > 5)%Z ->
    BookingValidationService.validateStep now step fd = []
    /\ BookingValidationService.canProceedToNextStep now step fd = true.
Proof.
  intros now step fd H.
  assert (E : BookingValidationService.validateStep now step fd = []).
  { unfold BookingValidationService.validateStep.
    rewrite (getStepKey_out_of_range step H). reflexivity. }
  split; [exact E|].
  unfold BookingValidationService.canProceedToNextStep,
    BookingValidationService.isStepValid.
  rewrite E. cbn [List.length Nat.eqb negb].
  destruct step as [|p|p]; try reflexivity.
  destruct p as [[p|p|]|[p|p|]|]; try reflexivity;
    try (destruct p; try reflexivity); lia.
Qed.

Lemma unknown_step_passes_witness :
  BookingValidationService.canProceedToNextStep Sample.clock 0
    (formData createInitialState) = true.
Proof.
  apply (unknown_step_passes Sample.clock 0 (formData createInitialState)).
  left. lia.
Defined.

Lemma canProceed_step3_false :
  forall now fd,
    BookingValidationService.canProceedToNextStep now 3 fd = false.
Proof.
  intros now fd. unfold BookingValidationService.canProceedToNextStep,
    BookingValidationService.isStepValid.
  destruct (validateStep3_head now fd) as [rest E]. rewrite E. reflexivity.
Qed.

(** X3. On every step other than 4 the business check of
    [canProceedToNextStep] adds nothing to the schema: the answer is exactly
    [isStepValid(step, formData)]. *)
Theorem canProceed_extra_check_only_on_step4 :
  forall now step fd,
    step <> 4%Z ->
    BookingValidationService.canProceedToNextStep now step fd
    = BookingValidationService.isStepValid now step fd.
Proof.
  intros now step fd H4.
  unfold BookingValidationService.canProceedToNextStep.
  destruct (BookingValidationService.isStepValid now step fd) eqn:E;
    cbn [negb]; [|reflexivity].
  apply length_zero_nil in E.
  destruct step as [|p|p]; try reflexivity.
  destruct p as [[p|p|]|[p|p|]|]; try reflexivity;
    try (destruct p; try reflexivity).
  - (* step 3 *)
    destruct (validateStep3_head now fd) as [rest R].
    rewrite R in E. discriminate E.
  - (* step 4 *)
    contradiction H4. reflexivity.
  - (* step 2 *)
    destruct (selectedVehicle (step2 fd)) as [v|] eqn:Ev; [reflexivity|].
    exfalso. revert E. unfold BookingValidationService.validateStep.
    cbn [getStepKey BookingValidationService.createValidationSchema flat_map].
    rewrite (selectedVehicle_value fd Ev). discriminate.
  - (* step 1 *)
    revert E. destruct fd as [[service level pre] s2 s3 s4 s5].
    destruct service, level; cbn; try reflexivity; discriminate.
Qed.

Lemma canProceed_extra_check_only_on_step4_witness :
  BookingValidationService.canProceedToNextStep Sample.clock 1
    (formData (bookingStateSubject Sample.serviceChosen))
  = BookingValidationService.isStepValid Sample.clock 1
      (formData (bookingStateSubject Sample.serviceChosen)).
Proof.
  apply (canProceed_extra_check_only_on_step4 Sample.clock 1).
  discriminate.
Defined.

(** X4. [validateStep(3, formData)] is always the REQUIRED error of
    [selectedDate], followed by the REQUIRED error of [selectedTimeSlot]
    exactly when no slot is selected. The future-date validator never
    contributes: a date in the past is reported as missing, like any date. *)
Theorem validateStep3_exact :
  forall now fd,
    BookingValidationService.validateStep now 3 fd
    = selectedDateRequired
      :: match selectedTimeSlot (step3 fd) with
         | Some _ => []
         | None => [selectedTimeSlotRequired]
         end.
Proof.
  intros now fd. destruct fd as [s1 s2 [date slot days] s4 s5].
  destruct date, slot; reflexivity.
Qed.

Lemma nonEmpty_string_truthy :
  forall s, BookingValidationService.isEmpty (JsString s) = false ->
            truthyString s = true.
Proof. intros [|c s] H; [discriminate H | reflexivity]. Qed.

(** The value found under an address field: the string of the address, or
    [undefined] when the location has no address. *)
Lemma address_field_lookup :
  forall fd,
    match address (location (step4 fd)) with
    | Some a =>
        BookingValidationService.getNestedValue (stepData fd key_step4)
          "location.address.street" = JsString (street a)
        /\ BookingValidationService.getNestedValue (stepData fd key_step4)
             "location.address.city" = JsString (city a)
        /\ BookingValidationService.getNestedValue (stepData fd key_step4)
             "location.address.zipCode" = JsString (zipCode a)
    | None =>
        BookingValidationService.getNestedValue (stepData fd key_step4)
          "location.address.street" = JsUndefined
        /\ BookingValidationService.getNestedValue (stepData fd key_step4)
             "location.address.city" = JsUndefined
        /\ BookingValidationService.getNestedValue (stepData fd key_step4)
             "location.address.zipCode" = JsUndefined
    end.
Proof.
  intros fd. destruct fd as [s1 s2 s3 [[ty addr shp] contact] s5].
  destruct addr as [a|]; cbn [address location step4].
  - destruct a. repeat apply conj; reflexivity.
  - destruct shp; repeat apply conj; reflexivity.
Qed.

(** A custom rule of the shape [mobile && !value ? message : null] yields
    nothing on a string or on [undefined]: an empty value is skipped before
    the rule, and a value that is not empty is truthy. *)
Lemma required_for_mobile_never_fires :
  forall (f : any -> BookingFormData -> option string) fieldName value fd step
         (msg : string),
    (forall v, f v fd
               = if BookingValidationService.isMobile fd && negb (truthy v)
                 then Some msg else None) ->
    (value = JsUndefined \/ exists s, value = JsString s) ->
    BookingValidationService.validateField fieldName value [rule_custom f]
      fd step = [].
Proof.
  intros f fieldName value fd step msg Hf Hv.
  destruct (BookingValidationService.isEmpty value) eqn:E.
  - apply validateField_custom_empty. exact E.
  - destruct Hv as [-> | [s ->]]; [discriminate E|].
    unfold BookingValidationService.validateField. cbn [flat_map].
    unfold BookingValidationService.applyValidationRule.
    rewrite E.
    cbn [required rule_custom minLength maxLength pattern custom andb].
    rewrite Hf. cbn [truthy]. rewrite (nonEmpty_string_truthy s E).
    rewrite andb_false_r. reflexivity.
Qed.

(** X5. The only error [validateStep(4, formData)] can ever report for the
    street, city or ZIP code of the address is "Invalid ZIP code format", for
    mobile service with a ZIP code that is not blank and does not match
    [^\d{5}(-\d{4})?$]. Street and city never produce an error, and none of
    the three required-for-mobile messages is ever produced. *)
Theorem address_errors_only_zip_format :
  forall now fd e,
    In e (BookingValidationService.validateStep now 4 fd) ->
    onAddressField e = true ->
    e = invalidZipFormat
    /\ location_type (location (step4 fd)) = mobile
    /\ exists a,
         address (location (step4 fd)) = Some a
         /\ BookingValidationService.isEmpty (JsString (zipCode a)) = false
         /\ RegExp.test RegExp.zipPattern (zipCode a) = false.
Proof.
  intros now fd e He Ha.
  destruct (validateStep_entry now 4 fd e He)
    as (key & fieldName & rules & Hk & Hs & Hf).
  injection Hk as <-.
  pose proof (validateField_field _ _ _ _ _ _ Hf) as [Hfield _].
  unfold onAddressField in Ha. rewrite Hfield in Ha.
  pose proof (address_field_lookup fd) as L.
  cbn [BookingValidationService.createValidationSchema In] in Hs.
  repeat (destruct Hs as [Hs | Hs];
          [injection Hs as <- <-; try discriminate Ha|]); [| | |destruct Hs].
  - (* street *)
    exfalso.
    rewrite (required_for_mobile_never_fires _ _ _ _ _
               "Street address is required for mobile service") in Hf.
    + destruct Hf.
    + intros v. reflexivity.
    + destruct (address (location (step4 fd))) as [a|];
        destruct L as (L1 & _ & _); rewrite L1; eauto.
  - (* city *)
    exfalso.
    rewrite (required_for_mobile_never_fires _ _ _ _ _
               "City is required for mobile service") in Hf.
    + destruct Hf.
    + intros v. reflexivity.
    + destruct (address (location (step4 fd))) as [a|];
        destruct L as (_ & L2 & _); rewrite L2; eauto.
  - (* zipCode *)
    destruct (address (location (step4 fd))) as [a|] eqn:Ea;
      destruct L as (_ & _ & L3); rewrite L3 in Hf.
    2:{ rewrite validateField_custom_empty in Hf by reflexivity.
        destruct Hf. }
    destruct (BookingValidationService.isEmpty (JsString (zipCode a))) eqn:E.
    { rewrite validateField_custom_empty in Hf by exact E. destruct Hf. }
    revert Hf. unfold BookingValidationService.validateField. cbn [flat_map].
    unfold BookingValidationService.applyValidationRule.
    rewrite E.
    cbn [required rule_custom minLength maxLength pattern custom andb].
    unfold BookingValidationService.zipRequiredForMobile,
      BookingValidationService.isMobile.
    cbn [truthy BookingValidationService.String_of].
    rewrite (nonEmpty_string_truthy _ E). cbn [negb].
    destruct (location_type (location (step4 fd))); [|intros []].
    destruct (RegExp.test RegExp.zipPattern (zipCode a)) eqn:T; cbn [negb];
      [intros []|].
    cbn. intros [<- | []].
    split; [reflexivity|]. split; [reflexivity|].
    exists a. repeat split; assumption.
Qed.

Lemma address_errors_only_zip_format_witness :
  location_type (location (step4 Sample.shortZipForm)) = mobile.
Proof.
  apply (address_errors_only_zip_format Sample.clock Sample.shortZipForm
           invalidZipFormat).
  - vm_compute. left. reflexivity.
  - reflexivity.
Defined.

Lemma year_value :
  forall fd v,
    selectedVehicle (step2 fd) = Some v ->
    BookingValidationService.getNestedValue (stepData fd key_step2)
      "selectedVehicle.year" = JsInt (year v).
Proof.
  intros fd v H. destruct fd as [s1 [sv nv vs] s3 s4 s5]. cbn in H. subst sv.
  destruct v as [[id|] mk md yr cl lp vt sz cond nt]; reflexivity.
Qed.

Lemma year_field_errors :
  forall now y fd,
    BookingValidationService.validateField "selectedVehicle.year" (JsInt y)
      [rule_required; rule_custom (BookingValidationService.validateYear now)]
      fd 2
    = if (y <? 1900)%Z || (currentYear now + 1 <? y)%Z
      then [yearOutOfRange now] else [].
Proof.
  intros now y fd. unfold BookingValidationService.validateField.
  cbn [flat_map]. unfold BookingValidationService.applyValidationRule.
  cbn [BookingValidationService.isEmpty required rule_required rule_custom
       minLength maxLength pattern custom andb
       BookingValidationService.validateYear].
  destruct ((y <? 1900)%Z || (currentYear now + 1 <? y)%Z); reflexivity.
Qed.

(** X6. For a selected vehicle, [validateStep(2, formData)] reports the year
    exactly when it is below 1900 or above the current year plus one, and
    then with the single error "Year must be between 1900 and <current year +
    1>" (code CUSTOM_VALIDATION); year 0 is not treated as missing. *)
Theorem year_reported_iff_out_of_range :
  forall now fd v,
    selectedVehicle (step2 fd) = Some v ->
    (forall e, In e (BookingValidationService.validateStep now 2 fd) ->
               field e = "selectedVehicle.year" -> e = yearOutOfRange now)
    /\ (In (yearOutOfRange now)
          (BookingValidationService.validateStep now 2 fd)
        <-> (year v < 1900 \/ year v > currentYear now + 1)%Z).
Proof.
  intros now fd v Hv.
  assert (F : forall e,
             In e (BookingValidationService.validateStep now 2 fd) ->
             field e = "selectedVehicle.year" ->
             In e (if (year v <? 1900)%Z || (currentYear now + 1 <? year v)%Z
                   then [yearOutOfRange now] else [])).
  { intros e He Hf.
    destruct (validateStep_entry now 2 fd e He)
      as (key & fieldName & rules & Hk & Hs & Hin).
    injection Hk as <-.
    pose proof (validateField_field _ _ _ _ _ _ Hin) as [Hfield _].
    rewrite Hf in Hfield.
    cbn [BookingValidationService.createValidationSchema In] in Hs.
    repeat (destruct Hs as [Hs | Hs];
            [injection Hs as <- <-; try discriminate Hfield|]);
      [|destruct Hs].
    rewrite (year_value fd v Hv), year_field_errors in Hin. exact Hin. }
  split.
  - intros e He Hf. specialize (F e He Hf).
    destruct (_ || _); [destruct F as [<- | []]; reflexivity | destruct F].
  - split.
    + intros He. specialize (F _ He eq_refl).
      destruct ((year v <? 1900)%Z || (currentYear now + 1 <? year v)%Z)
        eqn:E; [|destruct F].
      apply orb_prop in E as [E | E]; apply Z.ltb_lt in E; lia.
    + intros H. unfold BookingValidationService.validateStep.
      cbn [getStepKey BookingValidationService.createValidationSchema
           flat_map].
      rewrite (year_value fd v Hv), year_field_errors.
      assert (E : (year v <? 1900)%Z || (currentYear now + 1 <? year v)%Z
                  = true).
      { apply orb_true_iff. destruct H as [H | H]; [left | right];
          apply Z.ltb_lt; lia. }
      rewrite E.
      do 3 (apply in_or_app; right).
      apply in_or_app; left. left. reflexivity.
Qed.

Lemma year_reported_iff_out_of_range_witness :
  In (yearOutOfRange Sample.clock)
     (BookingValidationService.validateStep Sample.clock 2 Sample.modelTForm).
Proof.
  apply (proj2 (year_reported_iff_out_of_range Sample.clock Sample.modelTForm
                  Sample.modelT eq_refl)).
  left. cbn. lia.
Defined.

Lemma trimStart_nil_iff :
  forall cs, trimStart cs = [] <-> forallb isWhiteSpace cs = true.
Proof.
  induction cs as [|c cs IH]; cbn; [tauto|].
  destruct (isWhiteSpace c); cbn; [exact IH|].
  split; intros H; discriminate H.
Qed.

Lemma forallb_rev {A} (p : A -> bool) (l : list A) :
  forallb p (rev l) = forallb p l.
Proof.
  induction l as [|x l IH]; [reflexivity|].
  cbn. rewrite forallb_app, IH. cbn. rewrite andb_true_r. apply andb_comm.
Qed.

Lemma trimStart_keeps_non_space :
  forall cs, forallb isWhiteSpace cs = false ->
             forallb isWhiteSpace (trimStart cs) = false.
Proof.
  induction cs as [|c cs IH]; cbn; [discriminate|].
  destruct (isWhiteSpace c) eqn:E; cbn; [exact IH|].
  intros _. rewrite E. reflexivity.
Qed.

Lemma trimChars_nil_iff :
  forall cs, trimChars cs = [] <-> forallb isWhiteSpace cs = true.
Proof.
  intros cs. unfold trimChars. split.
  - intros H. destruct (forallb isWhiteSpace cs) eqn:E; [reflexivity|].
    apply trimStart_keeps_non_space in E.
    rewrite <- forallb_rev in E.
    apply trimStart_keeps_non_space in E.
    rewrite <- forallb_rev in E. rewrite H in E. discriminate E.
  - intros H. apply trimStart_nil_iff in H. rewrite H. reflexivity.
Qed.

Lemma length_string_of_list_ascii :
  forall cs, String.length (string_of_list_ascii cs) = List.length cs.
Proof. induction cs as [|c cs IH]; cbn; [reflexivity | now rewrite IH]. Qed.

(** X7. [isEmpty] holds of a string exactly when every character of it is
    white space (the empty string included): a value of blanks, tabs or line
    breaks counts as missing. *)
Theorem isEmpty_string_iff_blank :
  forall s : string,
    BookingValidationService.isEmpty (JsString s)
    = forallb isWhiteSpace (list_ascii_of_string s).
Proof.
  intros s. cbn [BookingValidationService.isEmpty]. unfold trim.
  rewrite length_string_of_list_ascii.
  destruct (forallb isWhiteSpace (list_ascii_of_string s)) eqn:E.
  - apply trimChars_nil_iff in E. rewrite E. reflexivity.
  - destruct (trimChars (list_ascii_of_string s)) eqn:T; [|reflexivity].
    apply trimChars_nil_iff in T. rewrite T in E. discriminate E.
Qed.

(** X8. [getFieldErrors] and [clearFieldErrors] split an error list in two:
    nothing that [clearFieldErrors] keeps is found by [getFieldErrors],
    nothing that [getFieldErrors] finds survives [clearFieldErrors], and the
    two parts together are the list, up to order. *)
Theorem field_errors_partition :
  forall fieldName step errors,
    BookingValidationService.getFieldErrors fieldName step
      (BookingValidationService.clearFieldErrors fieldName step errors) = []
    /\ BookingValidationService.clearFieldErrors fieldName step
         (BookingValidationService.getFieldErrors fieldName step errors) = []
    /\ Permutation errors
         (BookingValidationService.getFieldErrors fieldName step errors
          ++ BookingValidationService.clearFieldErrors fieldName step errors).
Proof.
  intros fieldName step errors.
  unfold BookingValidationService.getFieldErrors,
    BookingValidationService.clearFieldErrors.
  repeat apply conj.
  - apply filter_nil_when. intros e He. apply filter_In in He as [_ He].
    destruct (error_step e =? step)%Z, (String.eqb (field e) fieldName);
      cbn in *; congruence.
  - apply filter_nil_when. intros e He. apply filter_In in He as [_ He].
    destruct (error_step e =? step)%Z, (String.eqb (field e) fieldName);
      cbn in *; congruence.
  - induction errors as [|e l IH]; [constructor|].
    cbn [filter].
    destruct (error_step e =? step)%Z, (String.eqb (field e) fieldName);
      cbn [andb negb app].
    + constructor. exact IH.
    + apply Permutation_cons_app. exact IH.
    + apply Permutation_cons_app. exact IH.
    + apply Permutation_cons_app. exact IH.
Qed.

(* ================================================================== *)
(** ** Further properties of [BookingService]: navigation *)
(* ================================================================== *)

(** A call for the current step or an earlier one skips the validation
    branch altogether. *)
Lemma goToStep_not_forward :
  forall vs this n,
    (n <= currentStep (bookingStateSubject this))%Z ->
    goToStep vs n this
    = if (n <? 1)%Z || (5 <? n)%Z
      then (ThrowError ("Invalid step: " ++ numberToString n), this)
      else (Emits true,
            emitEvent {| event_type := step_changed; event_step := Some n;
                         event_data := None; event_error := None |}
              (updateState (set_currentStep n) this)).
Proof.
  intros vs this n Hle. unfold goToStep. rewrite MAX_BOOKING_STEPS_is_5.
  destruct ((n <? 1)%Z || (5 <? n)%Z); [reflexivity|].
  destruct (Z.ltb_spec (currentStep (bookingStateSubject this)) n); [lia|].
  reflexivity.
Qed.

(** X9. A forward [goToStep(n)] (n in 1..5) from a step that fails
    [canProceedToNextStep] returns "Please complete current step before
    proceeding", keeps the current step, emits no event and appends the
    errors of the current step to the recorded ones. Errors recorded earlier
    are not replaced: repeating the call records the same errors twice. *)
Theorem blocked_goToStep_accumulates :
  forall (vs : ValidationService) (this : Instance) (n : Z),
    let s := bookingStateSubject this in
    let errors := validateStep vs (currentStep s) (formData s) in
    (1 <= n <= 5)%Z ->
    (currentStep s < n)%Z ->
    canProceedToNextStep vs (currentStep s) (formData s) = false ->
    goToStep vs n this
    = (ThrowError "Please complete current step before proceeding",
       updateState (set_validationErrors (validationErrors s ++ errors)) this)
    /\ currentStep (bookingStateSubject (snd (goToStep vs n this)))
       = currentStep s
    /\ eventSubject (snd (goToStep vs n this)) = eventSubject this
    /\ validationErrors
         (bookingStateSubject
            (snd (goToStep vs n (snd (goToStep vs n this)))))
       = (validationErrors s ++ errors ++ errors)%list.
Proof.
  intros vs this n s errors Hn Hlt Hc.
  assert (G : forall i : Instance,
             currentStep (bookingStateSubject i) = currentStep s ->
             formData (bookingStateSubject i) = formData s ->
             goToStep vs n i
             = (ThrowError "Please complete current step before proceeding",
                updateState
                  (set_validationErrors
                     (validationErrors (bookingStateSubject i) ++ errors)) i)).
  { intros i Hs Hf. unfold goToStep. rewrite MAX_BOOKING_STEPS_is_5.
    destruct (Z.ltb_spec n 1); [lia|]. destruct (Z.ltb_spec 5 n); [lia|].
    cbn [orb]. rewrite Hs, Hf.
    destruct (Z.ltb_spec (currentStep s) n); [|lia].
    fold s. rewrite Hc. reflexivity. }
  rewrite (G this eq_refl eq_refl). cbn [snd].
  repeat apply conj; try reflexivity.
  rewrite G by reflexivity. cbn. rewrite <- app_assoc. reflexivity.
Qed.

Lemma blocked_goToStep_accumulates_witness :
  List.length
    (validationErrors
       (bookingStateSubject
          (snd (goToStep (bookingValidationService Sample.clock) 2
                  (snd (goToStep (bookingValidationService Sample.clock) 2
                          initialInstance))))))
  = 4%nat.
Proof.
  destruct (blocked_goToStep_accumulates
              (bookingValidationService Sample.clock) initialInstance 2)
    as (_ & _ & _ & H).
  - lia.
  - cbn. lia.
  - reflexivity.
  - rewrite H. reflexivity.
Defined.

(** X10. [goToStep(n)] for the current step or an earlier one never consults
    the validation service: the outcome is the same under any two services,
    and for n in 1..5 the call succeeds, sets the current step to n and
    emits [step_changed], whatever the form holds. *)
Theorem backward_navigation_unchecked :
  forall (vs1 vs2 : ValidationService) (this : Instance) (n : Z),
    (n <= currentStep (bookingStateSubject this))%Z ->
    goToStep vs1 n this = goToStep vs2 n this
    /\ ((1 <= n <= 5)%Z ->
        goToStep vs1 n this
        = (Emits true,
           emitEvent {| event_type := step_changed; event_step := Some n;
                        event_data := None; event_error := None |}
             (updateState (set_currentStep n) this))).
Proof.
  intros vs1 vs2 this n Hle. split.
  - rewrite (goToStep_not_forward vs1 this n Hle).
    rewrite (goToStep_not_forward vs2 this n Hle). reflexivity.
  - intros Hn. rewrite (goToStep_not_forward vs1 this n Hle).
    destruct (Z.ltb_spec n 1); [lia|]. destruct (Z.ltb_spec 5 n); [lia|].
    reflexivity.
Qed.

Lemma backward_navigation_unchecked_witness :
  fst (goToStep (bookingValidationService Sample.clock) 1 Sample.noVehicle)
  = Emits true.
Proof.
  destruct (backward_navigation_unchecked
              (bookingValidationService Sample.clock)
              (bookingValidationService Sample.laterClock)
              Sample.noVehicle 1) as [_ H].
  - cbn. lia.
  - rewrite H by lia. reflexivity.
Defined.

(** X11. In a state whose current step is in 1..5 the derived views predict
    navigation: [canGoToPreviousStep$] is true exactly when [previousStep]
    succeeds; when [isLastStep$] is true, [nextStep] fails with "Invalid step:
    6" and changes nothing; when it is false and [canProceedToNextStep$] is
    true, [nextStep] succeeds and advances by one step. *)
Theorem derived_views_predict_navigation :
  forall (vs : ValidationService) (this : Instance),
    let s := bookingStateSubject this in
    (1 <= currentStep s <= 5)%Z ->
    (canGoToPreviousStep_obs s = true
     <-> fst (previousStep vs this) = Emits true)
    /\ (isLastStep_obs s = true ->
          nextStep vs this = (ThrowError "Invalid step: 6", this))
    /\ (isLastStep_obs s = false ->
          canProceedToNextStep_obs vs s = true ->
          fst (nextStep vs this) = Emits true
          /\ currentStep (bookingStateSubject (snd (nextStep vs this)))
             = (currentStep s + 1)%Z).
Proof.
  intros vs this s Hs. unfold canGoToPreviousStep_obs, isLastStep_obs.
  rewrite MAX_BOOKING_STEPS_is_5. split; [|split].
  - unfold previousStep. fold s.
    rewrite goToStep_not_forward by (fold s; lia).
    destruct (Z.ltb_spec 1 (currentStep s)) as [H|H].
    + destruct (Z.ltb_spec (currentStep s - 1) 1); [lia|].
      destruct (Z.ltb_spec 5 (currentStep s - 1)); [lia|]. cbn. tauto.
    + destruct (Z.ltb_spec (currentStep s - 1) 1); [|lia]. cbn.
      split; intros H'; discriminate H'.
  - intros H. apply Z.eqb_eq in H. unfold nextStep. fold s. rewrite H.
    reflexivity.
  - intros Hl Hc. apply Z.eqb_neq in Hl.
    unfold canProceedToNextStep_obs in Hc. apply andb_prop in Hc as [_ Hc].
    unfold nextStep, goToStep. fold s. rewrite MAX_BOOKING_STEPS_is_5.
    destruct (Z.ltb_spec (currentStep s + 1) 1); [lia|].
    destruct (Z.ltb_spec 5 (currentStep s + 1)); [lia|].
    rewrite Hc. rewrite andb_false_r. cbn. split; reflexivity.
Qed.

Lemma derived_views_predict_navigation_witness :
  fst (nextStep (bookingValidationService Sample.clock) Sample.serviceChosen)
  = Emits true.
Proof.
  destruct (derived_views_predict_navigation
              (bookingValidationService Sample.clock) Sample.serviceChosen)
    as (_ & _ & H).
  - cbn. lia.
  - apply H; vm_compute; reflexivity.
Defined.

(** X21. With the validation service the application provides, a sequence of
    navigation calls that starts on step 1 and never asks for a step more
    than one above the current one ends on step 3 at the latest: step 3
    never passes [canProceedToNextStep], so steps 4 and 5 are reached only
    by a jump. *)
Theorem stepwise_navigation_stops_at_step3 :
  forall (now : Clock) (this : Instance) (calls : list Navigation),
    let vs := bookingValidationService now in
    currentStep (bookingStateSubject this) = 1%Z ->
    stepwise vs calls this = true ->
    (currentStep (bookingStateSubject (navigateAll vs calls this)) <= 3)%Z.
Proof.
  intros now this calls vs H1 Hs.
  assert (P : passedBelow vs (navigateAll vs calls this)).
  { apply navigateAll_passedBelow; [exact Hs|].
    intros j Hj. rewrite H1 in Hj. lia. }
  destruct (Z.le_gt_cases
              (currentStep (bookingStateSubject (navigateAll vs calls this)))
              3) as [Hle | Hgt]; [exact Hle|].
  specialize (P 3%Z).
  assert (F : canProceedToNextStep vs 3
                (formData (bookingStateSubject (navigateAll vs calls this)))
              = false) by apply canProceed_step3_false.
  rewrite P in F by lia. discriminate F.
Qed.

Lemma stepwise_navigation_stops_at_step3_witness :
  (currentStep
     (bookingStateSubject
        (navigateAll (bookingValidationService Sample.clock)
           [NextStep; NextStep; NextStep] Sample.serviceChosen)) <= 3)%Z.
Proof.
  apply (stepwise_navigation_stops_at_step3 Sample.clock Sample.serviceChosen
           [NextStep; NextStep; NextStep]).
  - reflexivity.
  - vm_compute. reflexivity.
Defined.

(* ================================================================== *)
(** ** Further properties of [BookingService]: form data and pricing *)
(* ================================================================== *)

(** [calculatePricing] either stores what it emits or changes nothing. *)
Lemma calculatePricing_cases :
  forall this,
    (exists p, calculatePricing this
               = (Emits p, updateState (set_pricing (Some p)) this))
    \/ calculatePricing this
       = (ThrowError "Required selections not complete", this).
Proof.
  intros this. unfold calculatePricing.
  destruct (selectedService _); [|right; reflexivity].
  destruct (selectedLevel _); [|right; reflexivity].
  destruct (selectedVehicle _); [|right; reflexivity].
  left. eexists. reflexivity.
Qed.

Lemma calculatePricing_formData :
  forall this,
    formData (bookingStateSubject (snd (calculatePricing this)))
    = formData (bookingStateSubject this).
Proof.
  intros this.
  destruct (calculatePricing_cases this) as [[p E] | E]; rewrite E;
    reflexivity.
Qed.

Lemma calculatePricing_currentStep :
  forall this,
    currentStep (bookingStateSubject (snd (calculatePricing this)))
    = currentStep (bookingStateSubject this).
Proof.
  intros this.
  destruct (calculatePricing_cases this) as [[p E] | E]; rewrite E;
    reflexivity.
Qed.

(** What [calculatePricing] emits depends on the first four step records
    only. *)
Lemma calculatePricing_inputs :
  forall a b,
    step1 (formData (bookingStateSubject a))
    = step1 (formData (bookingStateSubject b)) ->
    step2 (formData (bookingStateSubject a))
    = step2 (formData (bookingStateSubject b)) ->
    step3 (formData (bookingStateSubject a))
    = step3 (formData (bookingStateSubject b)) ->
    step4 (formData (bookingStateSubject a))
    = step4 (formData (bookingStateSubject b)) ->
    fst (calculatePricing a) = fst (calculatePricing b).
Proof.
  intros a b H1 H2 H3 H4. unfold calculatePricing. rewrite H1, H2, H3, H4.
  destruct (selectedService _); [|reflexivity].
  destruct (selectedLevel _); [|reflexivity].
  destruct (selectedVehicle _); reflexivity.
Qed.

Lemma calculatePricing_same_formData :
  forall a b,
    formData (bookingStateSubject a) = formData (bookingStateSubject b) ->
    fst (calculatePricing a) = fst (calculatePricing b).
Proof.
  intros a b H. apply calculatePricing_inputs; rewrite H; reflexivity.
Qed.

Lemma pricingFresh_ext :
  forall a b,
    formData (bookingStateSubject a) = formData (bookingStateSubject b) ->
    pricing (bookingStateSubject a) = pricing (bookingStateSubject b) ->
    pricingFresh a -> pricingFresh b.
Proof.
  intros a b Hf Hp Inv p H. rewrite <- Hp. apply Inv. rewrite <- H.
  apply calculatePricing_same_formData. exact Hf.
Qed.

Lemma calculatePricing_fresh :
  forall this, pricingFresh (snd (calculatePricing this)).
Proof.
  intros this p.
  rewrite (calculatePricing_same_formData _ this
             (calculatePricing_formData this)).
  destruct (calculatePricing_cases this) as [[q E] | E]; rewrite E; cbn.
  - intros H. injection H as <-. reflexivity.
  - discriminate.
Qed.

Lemma updateStepData_formData :
  forall step data this,
    formData (bookingStateSubject (updateStepData step data this))
    = match getStepKey step with
      | Some key => mergeStep (formData (bookingStateSubject this)) key data
      | None => formData (bookingStateSubject this)
      end.
Proof.
  intros step data this. unfold updateStepData.
  destruct (getStepKey step) as [key|]; [|reflexivity].
  destruct (shouldRecalculatePricing step); [|reflexivity].
  cbn [emitEvent bookingStateSubject].
  rewrite calculatePricing_formData. reflexivity.
Qed.

Lemma updateStepData_currentStep :
  forall step data this,
    currentStep (bookingStateSubject (updateStepData step data this))
    = currentStep (bookingStateSubject this).
Proof.
  intros step data this. unfold updateStepData.
  destruct (getStepKey step); [|reflexivity].
  destruct (shouldRecalculatePricing step); [|reflexivity].
  cbn [emitEvent bookingStateSubject].
  rewrite calculatePricing_currentStep. reflexivity.
Qed.

Lemma updateStepData_fresh :
  forall step data this,
    pricingFresh this -> pricingFresh (updateStepData step data this).
Proof.
  intros step data this Inv. unfold updateStepData.
  destruct (getStepKey step) as [key|] eqn:K; [|exact Inv].
  set (written := updateState _ this).
  destruct (shouldRecalculatePricing step) eqn:R.
  - apply (pricingFresh_ext (snd (calculatePricing written)));
      [reflexivity | reflexivity | apply calculatePricing_fresh].
  - (* only step 5 is left *)
    assert (key = key_step5).
    { apply getStepKey_range in K as K'.
      assert (step = 5%Z).
      { unfold shouldRecalculatePricing in R. cbn in R.
        repeat (apply orb_false_elim in R as [? R]).
        repeat match goal with
               | H : (_ =? _)%Z = false |- _ => apply Z.eqb_neq in H
               end.
        lia. }
      subst step. cbn in K. congruence. }
    subst key. intros p Hp.
    change (pricing (bookingStateSubject this) = Some p).
    apply Inv. rewrite <- Hp. apply calculatePricing_inputs; reflexivity.
Qed.

Section ServiceLemmas.

Variable vs : ValidationService.

Lemma goToStep_pricing :
  forall n this,
    pricing (bookingStateSubject (snd (goToStep vs n this)))
    = pricing (bookingStateSubject this).
Proof.
  intros n this. unfold goToStep.
  repeat match goal with |- context [if ?b then _ else _] => destruct b end;
    reflexivity.
Qed.

Lemma navigate_pricing :
  forall call this,
    pricing (bookingStateSubject (navigate vs call this))
    = pricing (bookingStateSubject this).
Proof. intros [n| |] this; apply goToStep_pricing. Qed.

Lemma navigate_currentStep_range :
  forall call this,
    (1 <= currentStep (bookingStateSubject this) <= 5)%Z ->
    (1 <= currentStep (bookingStateSubject (navigate vs call this)) <= 5)%Z.
Proof.
  intros call this H.
  assert (G : forall n,
             (1 <= currentStep
                     (bookingStateSubject (snd (goToStep vs n this))) <= 5)%Z).
  { intros n.
    destruct (goToStep_currentStep vs n this) as [E | (E & Hn & _)];
      cbn zeta in E; rewrite E; assumption. }
  destruct call as [n| |]; apply G.
Qed.

End ServiceLemmas.

(** X12. Whatever methods are called and in whatever order (navigation,
    [updateStepData], [calculatePricing], [validateCurrentStep],
    [clearValidationErrors], [resetBooking]), a current step in 1..5 stays in
    1..5. *)
Theorem currentStep_stays_in_range :
  forall (vs : ValidationService) (calls : list Call) (this : Instance),
    (1 <= currentStep (bookingStateSubject this) <= 5)%Z ->
    (1 <= currentStep (bookingStateSubject (performAll vs calls this)) <= 5)%Z.
Proof.
  intros vs calls. induction calls as [|call rest IH]; intros this H;
    [exact H|].
  change (performAll vs (call :: rest) this)
    with (performAll vs rest (perform vs call this)).
  apply IH. destruct call as [nav|step data| | |step|]; cbn [perform].
  - apply navigate_currentStep_range. exact H.
  - rewrite updateStepData_currentStep. exact H.
  - rewrite calculatePricing_currentStep. exact H.
  - exact H.
  - exact H.
  - cbn. lia.
Qed.

Lemma currentStep_stays_in_range_witness :
  (1 <= currentStep
          (bookingStateSubject
             (performAll (bookingValidationService Sample.clock)
                Sample.session initialInstance)) <= 5)%Z.
Proof.
  apply (currentStep_stays_in_range (bookingValidationService Sample.clock)
           Sample.session initialInstance).
  cbn. lia.
Defined.

(** X13. In every state reached from the initial state by calls of the
    synchronous methods, the stored pricing is never out of date while
    service, level and vehicle are all selected: whatever [calculatePricing]
    would emit is already the stored pricing. In particular the stored
    pricing is not [null] then. *)
Theorem stored_pricing_is_fresh :
  forall (vs : ValidationService) (calls : list Call),
    let this := performAll vs calls initialInstance in
    let fd := formData (bookingStateSubject this) in
    (forall p, fst (calculatePricing this) = Emits p ->
               pricing (bookingStateSubject this) = Some p)
    /\ (selectedService (step1 fd) <> None ->
        selectedLevel (step1 fd) <> None ->
        selectedVehicle (step2 fd) <> None ->
        pricing (bookingStateSubject this) <> None).
Proof.
  intros vs calls.
  assert (G : forall this, pricingFresh this ->
                           pricingFresh (performAll vs calls this)).
  { induction calls as [|call rest IH]; intros this Inv; [exact Inv|].
    change (performAll vs (call :: rest) this)
      with (performAll vs rest (perform vs call this)).
    apply IH. destruct call as [nav|step data| | |step|]; cbn [perform].
    - apply (pricingFresh_ext this);
        [symmetry; apply navigate_formData | symmetry; apply navigate_pricing
        | exact Inv].
    - apply updateStepData_fresh. exact Inv.
    - apply calculatePricing_fresh.
    - apply (pricingFresh_ext this); [reflexivity | reflexivity | exact Inv].
    - apply (pricingFresh_ext this); [reflexivity | reflexivity | exact Inv].
    - intros p Hp. discriminate Hp. }
  assert (F : pricingFresh (performAll vs calls initialInstance)).
  { apply G. intros q Hq. discriminate Hq. }
  cbn zeta. split; [exact F|].
  intros Hs Hl Hv.
  destruct (calculatePricing_cases (performAll vs calls initialInstance))
    as [[p E] | E].
  - rewrite (F p) by (rewrite E; reflexivity). discriminate.
  - exfalso. revert E. unfold calculatePricing.
    destruct (selectedService _); [|contradiction].
    destruct (selectedLevel _); [|contradiction].
    destruct (selectedVehicle _); [|contradiction].
    discriminate.
Qed.

Lemma stored_pricing_is_fresh_witness :
  pricing
    (bookingStateSubject
       (performAll (bookingValidationService Sample.clock) Sample.session
          initialInstance)) <> None.
Proof.
  apply (proj2 (stored_pricing_is_fresh
                  (bookingValidationService Sample.clock) Sample.session));
    vm_compute; discriminate.
Defined.

(** X14. When, after the merge of an [updateStepData] patch, service, level
    or vehicle is missing, the pricing recomputation fails silently and the
    pricing stored before the call stays in the state: it is not reset to
    [null]. *)
Theorem missing_selection_keeps_old_pricing :
  forall (this : Instance) (step : Z) (key : StepKey) (data : StepPatch),
    let merged := mergeStep (formData (bookingStateSubject this)) key data in
    getStepKey step = Some key ->
    selectedService (step1 merged) = None
    \/ selectedLevel (step1 merged) = None
    \/ selectedVehicle (step2 merged) = None ->
    formData (bookingStateSubject (updateStepData step data this)) = merged
    /\ pricing (bookingStateSubject (updateStepData step data this))
       = pricing (bookingStateSubject this).
Proof.
  intros this step key data merged K H. unfold updateStepData. rewrite K.
  fold merged.
  set (written := updateState _ this).
  assert (E : calculatePricing written
              = (ThrowError "Required selections not complete", written)).
  { unfold calculatePricing.
    change (formData (bookingStateSubject written)) with merged.
    destruct (selectedService (step1 merged));
      destruct (selectedLevel (step1 merged));
      destruct (selectedVehicle (step2 merged)); try reflexivity.
    destruct H as [H | [H | H]]; discriminate H. }
  destruct (shouldRecalculatePricing step); [rewrite E|]; split; reflexivity.
Qed.

Lemma missing_selection_keeps_old_pricing_witness :
  selectedVehicle
    (step2 (formData
              (bookingStateSubject
                 (updateStepData 2 Sample.deselectVehicle
                    Sample.truckPriced))))
  = None
  /\ pricing (bookingStateSubject
                (updateStepData 2 Sample.deselectVehicle Sample.truckPriced))
     = Some Sample.stalePricing.
Proof.
  destruct (missing_selection_keeps_old_pricing Sample.truckPriced 2
              key_step2 Sample.deselectVehicle eq_refl) as [Hf Hp].
  - right; right; reflexivity.
  - rewrite Hf, Hp. split; reflexivity.
Defined.

(** X15. [updateStepData(step, data)] with a step outside 1..5 changes
    nothing and emits nothing. With a step in 1..5 it merges the patch into
    that step's record only (every other step record is untouched), keeps
    the current step, removes exactly the recorded errors of that step, and
    emits one [data_updated] event. *)
Theorem updateStepData_frame :
  forall (this : Instance) (step : Z) (data : StepPatch),
    (getStepKey step = None -> updateStepData step data this = this)
    /\ (forall key, getStepKey step = Some key ->
          let after := updateStepData step data this in
          formData (bookingStateSubject after)
          = mergeStep (formData (bookingStateSubject this)) key data
          /\ (forall other, other <> key ->
                stepData (formData (bookingStateSubject after)) other
                = stepData (formData (bookingStateSubject this)) other)
          /\ currentStep (bookingStateSubject after)
             = currentStep (bookingStateSubject this)
          /\ validationErrors (bookingStateSubject after)
             = filter (fun e => negb (error_step e =? step)%Z)
                 (validationErrors (bookingStateSubject this))
          /\ eventSubject after
             = (eventSubject this
                ++ [{| event_type := data_updated; event_step := Some step;
                       event_data := Some (key, data);
                       event_error := None |}])%list).
Proof.
  intros this step data. split.
  - intros K. unfold updateStepData. rewrite K. reflexivity.
  - intros key K after. subst after. unfold updateStepData. rewrite K.
    set (written := updateState _ this).
    assert (G : forall other, other <> key ->
                stepData
                  (mergeStep (formData (bookingStateSubject this)) key data)
                  other
                = stepData (formData (bookingStateSubject this)) other).
    { intros other Hne. destruct key, other; try reflexivity; contradiction. }
    destruct (shouldRecalculatePricing step).
    + destruct (calculatePricing_cases written) as [[p E] | E]; rewrite E;
        cbn [snd emitEvent bookingStateSubject eventSubject updateState
             set_pricing formData currentStep validationErrors];
        repeat apply conj; try reflexivity; try exact G.
    + repeat apply conj; try reflexivity; exact G.
Qed.

Lemma updateStepData_frame_witness :
  updateStepData 9 Sample.deselectVehicle Sample.truckPriced
  = Sample.truckPriced
  /\ stepData
       (formData
          (bookingStateSubject
             (updateStepData 2 Sample.deselectVehicle Sample.truckPriced)))
       key_step1
     = stepData (formData (bookingStateSubject Sample.truckPriced)) key_step1.
Proof.
  split.
  - apply (proj1 (updateStepData_frame Sample.truckPriced 9
                    Sample.deselectVehicle)).
    reflexivity.
  - apply (proj2 (updateStepData_frame Sample.truckPriced 2
                    Sample.deselectVehicle) key_step2 eq_refl).
    discriminate.
Defined.

Lemma override_overlay {A} (later earlier : option A) (old : A) :
  override later (override earlier old)
  = override (overlay later earlier) old.
Proof. destruct later, earlier; reflexivity. Qed.

(** X16. Two [updateStepData] calls for the same step leave the form data
    that one call with the spread of both patches ([{...first, ...second}])
    leaves: a key named in both takes the later value, a key named in one
    keeps it. A patch that names no key leaves the form data as it is. *)
Theorem successive_updates_merge :
  forall (this : Instance) (step : Z) (first second : StepPatch),
    formData (bookingStateSubject
                (updateStepData step second (updateStepData step first this)))
    = formData (bookingStateSubject
                  (updateStepData step (combinePatches first second) this))
    /\ formData (bookingStateSubject (updateStepData step emptyPatch this))
       = formData (bookingStateSubject this).
Proof.
  intros this step first second.
  rewrite !updateStepData_formData.
  destruct (getStepKey step) as [key|]; [|split; reflexivity].
  split.
  - destruct key;
      cbn [mergeStep step1 step2 step3 step4 step5
           selectedService selectedLevel preSelectedService
           selectedVehicle isNewVehicle vehicles selectedDate
           selectedTimeSlot availableDays location contactInfo
           termsAccepted marketingOptIn specialRequests
           combinePatches patch_selectedService
           patch_selectedLevel patch_preSelectedService
           patch_selectedVehicle patch_isNewVehicle
           patch_vehicles patch_selectedDate
           patch_selectedTimeSlot patch_availableDays
           patch_location patch_contactInfo patch_termsAccepted
           patch_marketingOptIn patch_specialRequests];
      rewrite !override_overlay; reflexivity.
  - destruct (formData (bookingStateSubject this)) as [[] [] [] [] []].
    destruct key; reflexivity.
Qed.

(** X17. What [calculatePricing] emits depends on five inputs only: the
    service's base price, the level's multiplier, the vehicle's size
    category, the slot's price and the location type. Contact details, date,
    address, terms, recorded errors and the pricing stored before play no
    part. Computing again right after a computation gives the same outcome
    and the same state. *)
Theorem calculatePricing_reads_five_inputs :
  forall a b : Instance,
    let fa := formData (bookingStateSubject a) in
    let fb := formData (bookingStateSubject b) in
    option_map basePrice (selectedService (step1 fa))
    = option_map basePrice (selectedService (step1 fb)) ->
    option_map priceMultiplier (selectedLevel (step1 fa))
    = option_map priceMultiplier (selectedLevel (step1 fb)) ->
    option_map sizeCategory (selectedVehicle (step2 fa))
    = option_map sizeCategory (selectedVehicle (step2 fb)) ->
    slotPrice fa = slotPrice fb ->
    location_type (location (step4 fa))
    = location_type (location (step4 fb)) ->
    fst (calculatePricing a) = fst (calculatePricing b)
    /\ calculatePricing (snd (calculatePricing a))
       = (fst (calculatePricing a), snd (calculatePricing a)).
Proof.
  intros a b fa fb Hs Hl Hv Hp Ht. split.
  - unfold calculatePricing. fold fa fb.
    assert (Hsur : slotSurcharge (selectedTimeSlot (step3 fa))
                   = slotSurcharge (selectedTimeSlot (step3 fb))).
    { unfold slotPrice in Hp. unfold slotSurcharge.
      destruct (selectedTimeSlot (step3 fa)), (selectedTimeSlot (step3 fb));
        try rewrite Hp; try rewrite <- Hp; reflexivity. }
    rewrite Hsur, Ht.
    destruct (selectedService (step1 fa)), (selectedService (step1 fb));
      try discriminate Hs; [|reflexivity].
    destruct (selectedLevel (step1 fa)), (selectedLevel (step1 fb));
      try discriminate Hl; [|reflexivity].
    destruct (selectedVehicle (step2 fa)), (selectedVehicle (step2 fb));
      try discriminate Hv; [|reflexivity].
    cbn in Hs, Hl, Hv. injection Hs as ->. injection Hl as ->.
    injection Hv as ->. reflexivity.
  - clear. unfold calculatePricing.
    destruct (selectedService (step1 (formData (bookingStateSubject a))))
      eqn:E1; cbn [snd fst]; [|rewrite E1; reflexivity].
    destruct (selectedLevel (step1 (formData (bookingStateSubject a))))
      eqn:E2; cbn [snd fst]; [|rewrite E1, E2; reflexivity].
    destruct (selectedVehicle (step2 (formData (bookingStateSubject a))))
      eqn:E3; cbn [snd fst]; [|rewrite E1, E2, E3; reflexivity].
    cbn [updateState bookingStateSubject set_pricing formData].
    rewrite E1, E2, E3. reflexivity.
Qed.

Lemma calculatePricing_reads_five_inputs_witness :
  fst (calculatePricing Sample.pricingScenario)
  = fst (calculatePricing Sample.pricingScenarioLater).
Proof.
  apply (calculatePricing_reads_five_inputs Sample.pricingScenario
           Sample.pricingScenarioLater); reflexivity.
Defined.

(* ================================================================== *)
(** ** Further properties of [BookingService]: recorded errors, submission *)
(* ================================================================== *)

(** With the provided validation service, [validateCurrentStep] leaves the
    recorded errors of the other steps followed by the fresh errors of the
    current step, and those fresh errors all carry the current step. *)
Lemma validateCurrentStep_errors :
  forall now this,
    let s := bookingStateSubject this in
    let c := currentStep s in
    let fresh := BookingValidationService.validateStep now c (formData s) in
    validationErrors
      (bookingStateSubject
         (snd (validateCurrentStep (bookingValidationService now) this)))
    = (filter (fun e => negb (error_step e =? c)%Z) (validationErrors s)
       ++ fresh)%list
    /\ filter (fun e => (error_step e =? c)%Z) fresh = fresh
    /\ filter (fun e => negb (error_step e =? c)%Z) fresh = [].
Proof.
  intros now this s c fresh.
  assert (Hall : forall e, In e fresh -> (error_step e =? c)%Z = true).
  { intros e He. apply Z.eqb_eq. exact (validateStep_error_step _ _ _ _ He). }
  split; [reflexivity|]. split.
  - apply filter_all. exact Hall.
  - apply filter_nil_when. intros e He. rewrite (Hall e He). reflexivity.
Qed.

(** X18. With the provided validation service, [validateCurrentStep] emits
    the errors of the current step; afterwards the recorded errors of the
    current step are exactly those, the recorded errors of the other steps
    are as before, and a second call changes nothing more. *)
Theorem validateCurrentStep_replaces_step_errors :
  forall (now : Clock) (this : Instance),
    let vs := bookingValidationService now in
    let s := bookingStateSubject this in
    let c := currentStep s in
    let after := snd (validateCurrentStep vs this) in
    fst (validateCurrentStep vs this)
    = Emits (BookingValidationService.validateStep now c (formData s))
    /\ filter (fun e => (error_step e =? c)%Z)
         (validationErrors (bookingStateSubject after))
       = BookingValidationService.validateStep now c (formData s)
    /\ filter (fun e => negb (error_step e =? c)%Z)
         (validationErrors (bookingStateSubject after))
       = filter (fun e => negb (error_step e =? c)%Z) (validationErrors s)
    /\ snd (validateCurrentStep vs after) = after.
Proof.
  intros now this vs s c after.
  destruct (validateCurrentStep_errors now this) as (Eafter & Hmine & Hnone).
  cbn zeta in Eafter, Hmine, Hnone. fold s c in Eafter, Hmine, Hnone.
  fold vs in Eafter. fold after in Eafter.
  split; [reflexivity|]. split; [|split].
  - rewrite Eafter, filter_app, Hmine.
    rewrite (filter_filter_neg (fun e => (error_step e =? c)%Z)). reflexivity.
  - rewrite Eafter, filter_app, Hnone, app_nil_r.
    apply (filter_filter_same (fun e => negb (error_step e =? c)%Z)).
  - unfold validateCurrentStep.
    change (currentStep (bookingStateSubject after)) with c.
    change (formData (bookingStateSubject after)) with (formData s).
    change (validateStep vs c (formData s))
      with (BookingValidationService.validateStep now c (formData s)).
    cbn [snd]. rewrite Eafter, filter_app, Hnone, app_nil_r.
    rewrite (filter_filter_same (fun e => negb (error_step e =? c)%Z)).
    reflexivity.
Qed.

(** X19. [clearValidationErrors()] and [clearValidationErrors(0)] both
    remove every recorded error; [clearValidationErrors(k)] for another k
    removes exactly the errors of step k. Clearing the current step after
    [validateCurrentStep] gives the state that clearing it directly
    gives. *)
Theorem clearValidationErrors_scope :
  forall (now : Clock) (this : Instance) (k : Z),
    let vs := bookingValidationService now in
    let errors := validationErrors (bookingStateSubject this) in
    validationErrors (bookingStateSubject (clearValidationErrors None this))
    = []
    /\ validationErrors
         (bookingStateSubject (clearValidationErrors (Some 0%Z) this)) = []
    /\ (k <> 0%Z ->
        validationErrors
          (bookingStateSubject (clearValidationErrors (Some k) this))
        = filter (fun e => negb (error_step e =? k)%Z) errors)
    /\ (currentStep (bookingStateSubject this) = k -> k <> 0%Z ->
        clearValidationErrors (Some k) (snd (validateCurrentStep vs this))
        = clearValidationErrors (Some k) this).
Proof.
  intros now this k vs errors. repeat apply conj; try reflexivity.
  - intros Hk. unfold clearValidationErrors.
    destruct (Z.eqb_spec k 0); [contradiction|]. reflexivity.
  - intros Hc Hk.
    destruct (validateCurrentStep_errors now this) as (Eafter & _ & Hnone).
    cbn zeta in Eafter, Hnone. rewrite Hc in Eafter, Hnone.
    unfold clearValidationErrors.
    destruct (Z.eqb_spec k 0); [contradiction|]. cbn [negb].
    fold vs in Eafter. rewrite Eafter, filter_app, Hnone, app_nil_r.
    rewrite (filter_filter_same (fun e => negb (error_step e =? k)%Z)).
    reflexivity.
Qed.

Lemma clearValidationErrors_scope_witness :
  validationErrors
    (bookingStateSubject (clearValidationErrors (Some 2%Z) Sample.truckPriced))
  = [].
Proof.
  destruct (clearValidationErrors_scope Sample.clock Sample.truckPriced 2)
    as (_ & _ & H & _).
  rewrite H by discriminate. reflexivity.
Defined.

(** X20. With the validation service the application provides,
    [submitBooking] fails in every state: it returns "Validation errors
    exist", records the errors of all steps and never reaches the HTTP
    POST. *)
Theorem shipped_validation_blocks_submission :
  forall (now : Clock) (this : Instance),
    submitBooking (bookingValidationService now) this
    = (ThrowError "Validation errors exist",
       validationFailed
         (BookingValidationService.validateAllSteps now
            (formData (bookingStateSubject this))) this).
Proof.
  intros now this.
  apply (submitBooking_rejects (bookingValidationService now) this).
  apply validateAllSteps_never_empty.
Qed.

(* ================================================================== *)
(** ** Properties of [BookingConfirmationService] *)
(* ================================================================== *)

Lemma append_empty :
  forall s t : string, s ++ t = "" -> s = "" /\ t = "".
Proof.
  intros [|c s] t H; [split; [reflexivity | exact H] | discriminate H].
Qed.

Lemma find_none_when {A} (p : A -> bool) (l : list A) :
  Forall (fun x => p x = false) l -> find p l = None.
Proof.
  induction 1 as [|x l Hx _ IH]; [reflexivity|]. cbn. rewrite Hx. exact IH.
Qed.

(** X22. Neither location formatter ever returns an empty string. A shop
    booking without a shop record is shown as "Location TBD" in the calendar
    invite and as "Our shop location" in the templates. *)
Theorem formatted_location_never_blank :
  forall l : Location,
    BookingConfirmationService.formatLocationForCalendar l <> ""
    /\ BookingConfirmationService.formatLocationForTemplate l <> ""
    /\ (location_type l = shop -> shopLocation l = None ->
        BookingConfirmationService.formatLocationForCalendar l
        = "Location TBD"
        /\ BookingConfirmationService.formatLocationForTemplate l
           = "Our shop location").
Proof.
  intros [ty addr shp]. repeat apply conj.
  - unfold BookingConfirmationService.formatLocationForCalendar.
    cbn [location_type address shopLocation].
    destruct ty, addr as [a|];
      try (destruct shp as [s|]; [|discriminate];
           destruct (shop_address s) as [|c r]; discriminate).
    intros H. apply append_empty in H as [_ H]. discriminate H.
  - unfold BookingConfirmationService.formatLocationForTemplate.
    cbn [location_type shopLocation].
    destruct ty; [discriminate|].
    destruct shp as [s|]; [|discriminate].
    destruct (shop_name s) as [|c r]; discriminate.
  - cbn [location_type shopLocation]. intros -> ->.
    unfold BookingConfirmationService.formatLocationForCalendar,
      BookingConfirmationService.formatLocationForTemplate.
    cbn [location_type address shopLocation].
    destruct addr; split; reflexivity.
Qed.

Lemma formatted_location_never_blank_witness :
  BookingConfirmationService.formatLocationForCalendar
    (Sample.shopAt Sample.emptyAddress) = "Location TBD".
Proof.
  destruct (formatted_location_never_blank (Sample.shopAt Sample.emptyAddress))
    as (_ & _ & H).
  apply H; reflexivity.
Defined.

Section Platform.

Variables (formatDate formatTime : Date -> string)
          (toFixed2 : float -> string)
          (minusDays : Date -> Z -> Date).

(** X23. [sendConfirmationSMS] sends nothing and reports success for a
    customer who prefers e-mail. For any other customer it fails with "SMS
    template not found" whenever no cached template has the type
    ['booking_confirmation_sms'], and the fallback templates of
    [getMockTemplates] have none (the SMS template is filed under type
    ['booking_confirmation']). *)
Theorem sms_confirmation_needs_sms_typed_template :
  forall (templatesCache : list NotificationTemplate)
         (confirmationData : BookingConfirmationData),
    let contact := stored_contactInfo (confirmed_booking confirmationData) in
    (preferredContact contact = by_email ->
       BookingConfirmationService.sendConfirmationSMS
         formatDate formatTime toFixed2 templatesCache confirmationData
       = Completed true)
    /\ (preferredContact contact <> by_email ->
        Forall (fun t => template_type t <> "booking_confirmation_sms")
          templatesCache ->
        BookingConfirmationService.sendConfirmationSMS
          formatDate formatTime toFixed2 templatesCache confirmationData
        = Refused "SMS template not found")
    /\ Forall (fun t => template_type t <> "booking_confirmation_sms")
         BookingConfirmationService.getMockTemplates.
Proof.
  intros cache data contact. repeat apply conj.
  - intros H.
    unfold BookingConfirmationService.sendConfirmationSMS,
      BookingConfirmationService.prefersEmail.
    fold contact. rewrite H. reflexivity.
  - intros H Hc.
    unfold BookingConfirmationService.sendConfirmationSMS,
      BookingConfirmationService.prefersEmail.
    fold contact.
    destruct (preferredContact contact); [contradiction | |];
      unfold BookingConfirmationService.getTemplate;
      rewrite find_none_when; try reflexivity;
      (eapply Forall_impl; [|exact Hc]); intros t Ht;
      apply String.eqb_neq; exact Ht.
  - repeat constructor; discriminate.
Qed.

(** X24. [createReminderRequests] returns nothing when no cached template has
    type ['reminder']. Otherwise it returns, for every entry of
    [daysBefore], one e-mail request if e-mail reminders are on and one SMS
    request if SMS reminders are on and the customer does not prefer
    e-mail: every request uses the reminder template, is scheduled that
    many days before the booking date, and an SMS request is never built
    for a customer who prefers e-mail. *)
Theorem reminder_requests_shape :
  forall (templatesCache : list NotificationTemplate)
         (confirmationData : BookingConfirmationData)
         (settings : ReminderSettings),
    let booking := confirmed_booking confirmationData in
    let contact := stored_contactInfo booking in
    let requests :=
      BookingConfirmationService.createReminderRequests
        formatDate formatTime toFixed2 minusDays
        templatesCache confirmationData settings in
    (BookingConfirmationService.getTemplate templatesCache "reminder" = None ->
     requests = [])
    /\ (forall t,
          BookingConfirmationService.getTemplate templatesCache "reminder"
          = Some t ->
          List.length requests
          = (List.length (daysBefore settings)
             * ((if remind_email settings then 1 else 0)
                + (if remind_sms settings
                      && negb (BookingConfirmationService.prefersEmail contact)
                   then 1 else 0)))%nat
          /\ forall r, In r requests ->
               templateId r = template_id t
               /\ (exists days,
                      In days (daysBefore settings)
                      /\ scheduledFor r
                         = Some (minusDays (scheduledDate booking) days))
               /\ ((channel r = channel_email
                    /\ remind_email settings = true)
                   \/ (channel r = channel_sms
                       /\ remind_sms settings = true
                       /\ preferredContact contact <> by_email))).
Proof.
  intros cache data settings booking contact requests. subst requests.
  unfold BookingConfirmationService.createReminderRequests. split.
  - intros ->. reflexivity.
  - intros t ->. split.
    + induction (daysBefore settings) as [|d ds IH]; [reflexivity|].
      cbn [flat_map List.length]. rewrite length_app, IH.
      unfold BookingConfirmationService.remindersFor. fold booking contact.
      destruct (remind_email settings),
        (remind_sms settings
         && negb (BookingConfirmationService.prefersEmail contact));
        cbn; lia.
    + intros r Hr. apply in_flat_map in Hr as (d & Hd & Hr).
      unfold BookingConfirmationService.remindersFor in Hr.
      fold booking contact in Hr.
      apply in_app_or in Hr as [Hr | Hr].
      * destruct (remind_email settings) eqn:E; [|destruct Hr].
        destruct Hr as [<- | []]. cbn. repeat split; eauto.
      * destruct (remind_sms settings) eqn:E; [|destruct Hr].
        unfold BookingConfirmationService.prefersEmail in Hr.
        destruct (preferredContact contact) eqn:P; cbn in Hr;
          try (destruct Hr; fail);
          destruct Hr as [<- | []]; cbn; repeat split; eauto;
          right; repeat split; discriminate.
Qed.

End Platform.

Lemma sms_confirmation_needs_sms_typed_template_witness :
  BookingConfirmationService.sendConfirmationSMS
    Sample.isoStamp Sample.isoStamp Sample.plainAmount
    BookingConfirmationService.getMockTemplates
    (Sample.confirmation Sample.textContact)
  = Refused "SMS template not found"
  /\ BookingConfirmationService.sendConfirmationSMS
       Sample.isoStamp Sample.isoStamp Sample.plainAmount
       BookingConfirmationService.getMockTemplates
       (Sample.confirmation Sample.contact)
     = Completed true.
Proof.
  destruct (sms_confirmation_needs_sms_typed_template
              Sample.isoStamp Sample.isoStamp Sample.plainAmount
              BookingConfirmationService.getMockTemplates
              (Sample.confirmation Sample.textContact)) as (_ & H & Hmock).
  destruct (sms_confirmation_needs_sms_typed_template
              Sample.isoStamp Sample.isoStamp Sample.plainAmount
              BookingConfirmationService.getMockTemplates
              (Sample.confirmation Sample.contact)) as (H' & _ & _).
  split.
  - apply H; [discriminate | exact Hmock].
  - apply H'. reflexivity.
Defined.

Lemma reminder_requests_shape_witness :
  List.length
    (BookingConfirmationService.createReminderRequests
       Sample.isoStamp Sample.isoStamp Sample.plainAmount
       Sample.wholeDaysBefore BookingConfirmationService.getMockTemplates
       (Sample.confirmation Sample.textContact) Sample.bothChannels)
  = 4%nat.
Proof.
  destruct (reminder_requests_shape
              Sample.isoStamp Sample.isoStamp Sample.plainAmount
              Sample.wholeDaysBefore
              BookingConfirmationService.getMockTemplates
              (Sample.confirmation Sample.textContact) Sample.bothChannels)
    as [_ H].
  destruct (H (nth 2 BookingConfirmationService.getMockTemplates
                 {| template_id := ""; template_type := ""; subject := "";
                    content := ""; template_variables := [] |}) eq_refl)
    as [Hlen _].
  rewrite Hlen. reflexivity.
Defined.
